(** * Execution run of the arbitrator validation server

    A model of [validator/server_arb/execution_run.go]: the orchestrator that
    answers "machine state at step N" and "proof of step N" queries against a
    machine cache, handing the answer over through a promise.

    The methods of [executionRun] are written as programs over the calls they
    make (to the cache held in [e.cache], to the machine handed back by the
    cache, and to the promise), so that a program reads like the Go function
    it comes from and both its result and the sequence of calls it performs
    can be stated.  A goroutine started with [LaunchThreadWithCancel] is
    represented by its body; contexts and cancellation are not represented. *)

From Stdlib Require Import ZArith List String Bool Lia DecimalString.
From ExtLib Require Import Structures.Monad.
Import ListNotations.
Import MonadNotation.

Local Open Scope Z_scope.
Local Open Scope monad_scope.

(** ** Unsigned 64-bit integers *)

Module Uint64.

Definition modulus : Z := 2 ^ 64.

Definition wrap (z : Z) : Z := z mod modulus.

(** Go's unary [^x] on a [uint64]. *)
Definition complement (x : Z) : Z := wrap (Z.lnot x).

End Uint64.

(** ** Errors *)

(** A Go [error] is represented by its message. *)
Definition error : Type := string.

(** The verb [%d] of [fmt]. *)
Definition fmt_d (z : Z) : string := NilZero.string_of_int (Z.to_int z).

(** [fmt.Errorf("machine is in wrong position want: %d, got: %d", want, got)] *)
Definition wrongPositionError (want got : Z) : error :=
  ("machine is in wrong position want: " ++ fmt_d want
   ++ ", got: " ++ fmt_d got)%string.

(** The runtime error of a method call through a nil interface value. *)
Definition nilDereference : string :=
  "invalid memory address or nil pointer dereference"%string.

(** ** Values of package [validator] *)

Module validator.

(** Modelled from the spec: the declaration of [validator.MachineStatus] is
    not part of the sources at hand; the spec gives the status as an
    enumeration of [Running], [Finished] and [Errored].  The conversion
    [validator.MachineStatus(machine.Status())] keeps the value. *)
Inductive MachineStatus : Type :=
| Running
| Finished
| Errored.

(** [validator.MachineStepResult], with the fields that [consumeMachine]
    fills in.  The global state and the hash of a machine are opaque
    here. *)
Record MachineStepResult (GoGlobalState CommonHash : Type) : Type :=
  mkMachineStepResult {
    Position : Z;
    Status : MachineStatus;
    GlobalState : GoGlobalState;
    Hash : CommonHash
  }.

Arguments mkMachineStepResult {GoGlobalState CommonHash}.
Arguments Position {GoGlobalState CommonHash} m.
Arguments Status {GoGlobalState CommonHash} m.
Arguments GlobalState {GoGlobalState CommonHash} m.
Arguments Hash {GoGlobalState CommonHash} m.

End validator.

(** ** The machine interface

    The methods of [MachineInterface] that [execution_run.go] calls. *)
Class MachineInterface (M GoGlobalState CommonHash : Type) : Type := {
  GetStepCount : M -> Z;
  IsRunning : M -> bool;
  Status : M -> validator.MachineStatus;
  GetGlobalState : M -> GoGlobalState;
  Hash : M -> CommonHash;
  ProveNextStep : M -> list Byte.byte
}.

(** ** Promises *)

(** Modelled from the spec: [containers.Promise] is not part of the sources
    at hand.  The spec describes a single-assignment container with the
    states below; a producer call on a promise that is no longer pending is
    ignored (the spec leaves rejecting or ignoring to the implementation). *)
Inductive Promise (T : Type) : Type :=
| Pending
| Fulfilled (v : T)
| Failed (e : error)
| Cancelled.

Arguments Pending {T}.
Arguments Fulfilled {T} v.
Arguments Failed {T} e.
Arguments Cancelled {T}.

Definition NewPromise {T : Type} : Promise T := Pending.

Definition Produce {T : Type} (p : Promise T) (v : T) : Promise T :=
  match p with
  | Pending => Fulfilled v
  | _ => p
  end.

Definition ProduceError {T : Type} (p : Promise T) (e : error) : Promise T :=
  match p with
  | Pending => Failed e
  | _ => p
  end.

(** ** Programs over calls *)

Section Programs.

(** [M]: machines; [C]: machine caches; [T]: what the promise carries. *)
Context {M C GoGlobalState CommonHash : Type}.

(** What [GetMachineAt] and [GetFinalMachine] return: Go's pair
    [(MachineInterface, error)], either of which may be nil. *)
Definition lookup : Type := option M * option error.

(** The calls a method of [executionRun] can make.  The calls on the
    cache go to whatever [e.cache] holds when the call is made. *)
Inductive call {T : Type} : Type :=
| Cache_GetMachineAt (position : Z)
| Cache_GetFinalMachine
| Cache_SpawnCacheWithLimits (start end_ : Z)
| Run_SetCache (c : C)
| Machine_GetStepCount (m : M)
| Machine_IsRunning (m : M)
| Machine_Status (m : M)
| Machine_GetGlobalState (m : M)
| Machine_Hash (m : M)
| Machine_ProveNextStep (m : M)
| Promise_Produce (v : T)
| Promise_ProduceError (e : error).

Arguments call : clear implicits.

(** What a call hands back to its caller. *)
Definition resp {T : Type} (c : call T) : Type :=
  match c with
  | Cache_GetMachineAt _ => lookup
  | Cache_GetFinalMachine => lookup
  | Cache_SpawnCacheWithLimits _ _ => C
  | Run_SetCache _ => unit
  | Machine_GetStepCount _ => Z
  | Machine_IsRunning _ => bool
  | Machine_Status _ => validator.MachineStatus
  | Machine_GetGlobalState _ => GoGlobalState
  | Machine_Hash _ => CommonHash
  | Machine_ProveNextStep _ => list Byte.byte
  | Promise_Produce _ => unit
  | Promise_ProduceError _ => unit
  end.

(** A program returns, makes a call and goes on with what the call hands
    back, or panics. *)
Inductive prog (T R : Type) : Type :=
| Ret (r : R)
| Vis (c : call T) (k : resp c -> prog T R)
| Panic (msg : string).

Arguments Ret {T R} r.
Arguments Vis {T R} c k.
Arguments Panic {T R} msg.

Fixpoint pbind {T A B : Type} (p : prog T A) (f : A -> prog T B) : prog T B :=
  match p with
  | Ret a => f a
  | Vis c k => Vis c (fun x => pbind (k x) f)
  | Panic msg => Panic msg
  end.

#[global] Instance Monad_prog {T : Type} : Monad (prog T) :=
  {| ret := fun _ r => Ret r; bind := fun _ _ p f => pbind p f |}.

Definition perform {T : Type} (c : call T) : prog T (resp c) :=
  Vis c (fun x => Ret x).

(** *** Method calls on a machine held in an interface value *)

Section Methods.

Context {T : Type}.

Definition onMachine {X : Type} (machine : option M) (f : M -> prog T X)
  : prog T X :=
  match machine with
  | Some m => f m
  | None => Panic nilDereference
  end.

Definition callGetStepCount (machine : option M) : prog T Z :=
  onMachine machine (fun m => perform (Machine_GetStepCount m)).

Definition callIsRunning (machine : option M) : prog T bool :=
  onMachine machine (fun m => perform (Machine_IsRunning m)).

Definition callStatus (machine : option M) : prog T validator.MachineStatus :=
  onMachine machine (fun m => perform (Machine_Status m)).

Definition callGetGlobalState (machine : option M) : prog T GoGlobalState :=
  onMachine machine (fun m => perform (Machine_GetGlobalState m)).

Definition callHash (machine : option M) : prog T CommonHash :=
  onMachine machine (fun m => perform (Machine_Hash m)).

Definition callProveNextStep (machine : option M) : prog T (list Byte.byte) :=
  onMachine machine (fun m => perform (Machine_ProveNextStep m)).

End Methods.

(** ** The methods of [executionRun] *)

Local Abbreviation StepResult := (validator.MachineStepResult GoGlobalState CommonHash).

(** [consumeMachine(promise, reqPosition, machine, err)] *)
Definition consumeMachine (reqPosition : Z) (machine : option M)
  (err : option error) : prog StepResult unit :=
  match err with
  | Some e => perform (Promise_ProduceError e)
  | None =>
    machineStep <- callGetStepCount machine ;;
    let produceResult : prog StepResult unit :=
      status <- callStatus machine ;;
      globalState <- callGetGlobalState machine ;;
      hash <- callHash machine ;;
      perform (Promise_Produce
                 {| validator.Position := machineStep;
                    validator.Status := status;
                    validator.GlobalState := globalState;
                    validator.Hash := hash |}) in
    if negb (reqPosition =? machineStep) then
      machineRunning <- callIsRunning machine ;;
      if (machineRunning && negb (reqPosition =? machineStep))
         || (machineStep >? reqPosition)
      then
        got <- callGetStepCount machine ;;
        perform (Promise_ProduceError (wrongPositionError reqPosition got))
      else produceResult
    else produceResult
  end.

(** [PrepareRange(start, end)] *)
Definition PrepareRange {T : Type} (start end_ : Z) : prog T unit :=
  newCache <- perform (Cache_SpawnCacheWithLimits start end_) ;;
  perform (Run_SetCache newCache).

(** What a method that starts a goroutine hands back: the promise it
    allocated, and the body of the goroutine, which is what resolves the
    promise. *)
Record launched (T : Type) : Type := mkLaunched {
  promise : Promise T;
  thread : prog T unit
}.

Arguments promise {T} l.
Arguments thread {T} l.

(** [GetStepAt(position)] *)
Definition GetStepAt (position : Z) : launched StepResult :=
  {| promise := NewPromise;
     thread :=
       '(mach, err) <-
         (if position =? Uint64.complement 0
          then perform Cache_GetFinalMachine
          else perform (Cache_GetMachineAt position)) ;;
       consumeMachine position mach err |}.

(** [GetProofAt(position)] *)
Definition GetProofAt (position : Z) : launched (list Byte.byte) :=
  {| promise := NewPromise;
     thread :=
       '(machine, err) <- perform (Cache_GetMachineAt position) ;;
       match err with
       | Some e => perform (Promise_ProduceError e)
       | None =>
         proof <- callProveNextStep machine ;;
         perform (Promise_Produce proof)
       end |}.

(** [GetLastStep()] *)
Definition GetLastStep : launched StepResult :=
  GetStepAt (Uint64.complement 0).

End Programs.

Arguments call : clear implicits.
Arguments prog : clear implicits.
Arguments Ret {M C GoGlobalState CommonHash T R} r.
Arguments Vis {M C GoGlobalState CommonHash T R} c k.
Arguments Panic {M C GoGlobalState CommonHash T R} msg.
Arguments launched : clear implicits.
Arguments promise {M C GoGlobalState CommonHash T} l.
Arguments thread {M C GoGlobalState CommonHash T} l.

(** ** The machine cache, as the execution run sees it

    The three methods of [*MachineCache] that [execution_run.go] calls.  A
    method works on the cache in place, so it hands back the cache as it
    leaves it next to its result.  [SpawnCacheWithLimits] has a single
    result, the new cache: [PrepareRange] binds it with [newCache := ...].
    A call that fails has no result to hand back and does not return: that
    is [inr], with the error the call fails with. *)
Class MachineCacheInterface (C M : Type) : Type := {
  GetMachineAt : C -> Z -> C * (option M * option error);
  GetFinalMachine : C -> C * (option M * option error);
  SpawnCacheWithLimits : C -> Z -> Z -> C * (C + error)
}.

(** ** Running a program *)

Section Semantics.

Context {M C GoGlobalState CommonHash : Type}.
Context {machines : MachineInterface M GoGlobalState CommonHash}.
Context {caches : MachineCacheInterface C M}.

(** [type executionRun struct { stopwaiter.StopWaiter; cache *MachineCache }],
    without the stop-waiter. *)
Record executionRun : Type := mkExecutionRun {
  cache : C
}.

(** What a method or goroutine body works on: the run it belongs to and
    the promise it was given. *)
Record world (T : Type) : Type := mkWorld {
  theRun : executionRun;
  thePromise : Promise T
}.

Arguments mkWorld {T} theRun thePromise.
Arguments theRun {T} w.
Arguments thePromise {T} w.

Local Abbreviation call := (@call M C).
Local Abbreviation prog := (@prog M C GoGlobalState CommonHash).

(** How a call or a program ends: it returns, or it does not and what it
    was called from ends with it. *)
Inductive completion (R : Type) : Type :=
| Returned (r : R)
| Panicked (msg : string).

Arguments Returned {R} r.
Arguments Panicked {R} msg.

Definition onCache {T X : Type} (w : world T) (f : C -> C * X) : world T * X :=
  let (c', x) := f (cache (theRun w)) in
  (mkWorld (mkExecutionRun c') (thePromise w), x).

(** What a call does to the world and how it ends.  Of the calls made here
    only [SpawnCacheWithLimits] can fail to return. *)
Definition handle {T : Type} (c : call T) (w : world T)
  : world T * completion (@resp M C GoGlobalState CommonHash T c) :=
  match c with
  | Cache_GetMachineAt position =>
      let (w', x) := onCache w (fun c => GetMachineAt c position) in
      (w', Returned x)
  | Cache_GetFinalMachine =>
      let (w', x) := onCache w GetFinalMachine in
      (w', Returned x)
  | Cache_SpawnCacheWithLimits start end_ =>
      match onCache w (fun c => SpawnCacheWithLimits c start end_) with
      | (w', inl newCache) => (w', Returned newCache)
      | (w', inr err) => (w', Panicked err)
      end
  | Run_SetCache c' =>
      (mkWorld (mkExecutionRun c') (thePromise w), Returned tt)
  | Machine_GetStepCount m => (w, Returned (GetStepCount m))
  | Machine_IsRunning m => (w, Returned (IsRunning m))
  | Machine_Status m => (w, Returned (Status m))
  | Machine_GetGlobalState m => (w, Returned (GetGlobalState m))
  | Machine_Hash m => (w, Returned (Hash m))
  | Machine_ProveNextStep m => (w, Returned (ProveNextStep m))
  | Promise_Produce v =>
      (mkWorld (theRun w) (Produce (thePromise w) v), Returned tt)
  | Promise_ProduceError e =>
      (mkWorld (theRun w) (ProduceError (thePromise w) e), Returned tt)
  end.

(** What running a program gives: the world it leaves, the calls it made
    in order, and how it ended. *)
Record outcome (T R : Type) : Type := mkOutcome {
  final : world T;
  trace : list (call T);
  ending : completion R
}.

Arguments mkOutcome {T R} final trace ending.
Arguments final {T R} o.
Arguments trace {T R} o.
Arguments ending {T R} o.

Fixpoint run {T R : Type} (p : prog T R) (w : world T) : outcome T R :=
  match p with
  | Ret r => mkOutcome w [] (Returned r)
  | Panic msg => mkOutcome w [] (Panicked msg)
  | Vis c k =>
      match handle c w with
      | (w', Returned x) =>
          let o := run (k x) w' in
          mkOutcome (final o) (c :: trace o) (ending o)
      | (w', Panicked msg) => mkOutcome w' [c] (Panicked msg)
      end
  end.

(** The goroutine of a launched query, run against [e] to its end. *)
Definition resolve {T : Type} (l : launched M C GoGlobalState CommonHash T)
  (e : executionRun) : outcome T unit :=
  run (thread l) (mkWorld e (promise l)).

(** The state in which the goroutine leaves the promise. *)
Definition resolution {T : Type} (l : launched M C GoGlobalState CommonHash T)
  (e : executionRun) : Promise T :=
  thePromise (final (resolve l e)).

End Semantics.
Arguments executionRun : clear implicits.
Arguments mkExecutionRun {C} cache.
Arguments world : clear implicits.
Arguments mkWorld {C T} theRun thePromise.
Arguments theRun {C T} w.
Arguments thePromise {C T} w.
Arguments completion : clear implicits.
Arguments Returned {R} r.
Arguments Panicked {R} msg.
Arguments outcome : clear implicits.
Arguments mkOutcome {M C T R} final trace ending.
Arguments final {M C T R} o.
Arguments trace {M C T R} o.
Arguments ending {M C T R} o.

(** ** What [consumeMachine] decides *)

Section Consumed.

Context {M GoGlobalState CommonHash : Type}.
Context {machines : MachineInterface M GoGlobalState CommonHash}.

Local Abbreviation StepResult := (validator.MachineStepResult GoGlobalState CommonHash).

(** The result that [consumeMachine] builds from a machine. *)
Definition resultOf (m : M) : StepResult :=
  {| validator.Position := GetStepCount m;
     validator.Status := Status m;
     validator.GlobalState := GetGlobalState m;
     validator.Hash := Hash m |}.

(** The test under which [consumeMachine] rejects a machine. *)
Definition wrongPosition (reqPosition : Z) (m : M) : bool :=
  negb (reqPosition =? GetStepCount m)
  && ((IsRunning m && negb (reqPosition =? GetStepCount m))
      || (GetStepCount m >? reqPosition)).

End Consumed.

(** ** The sentinel position

    The position that stands for "run until the machine halts": the
    [uint64] with all bits set. *)
Definition sentinel : Z := Z.ones 64.

(** [getLastStep] as the interface describes it: [getStepAt] applied to the
    sentinel position. *)
Definition getLastStep_spec {M C GoGlobalState CommonHash : Type}
  : launched M C GoGlobalState CommonHash
      (validator.MachineStepResult GoGlobalState CommonHash) :=
  GetStepAt sentinel.

(** ** The lookup behind a step query *)

Section Lookups.

Context {M C GoGlobalState CommonHash : Type}.
Context {caches : MachineCacheInterface C M}.

Local Abbreviation StepResult := (validator.MachineStepResult GoGlobalState CommonHash).

(** The calls that go to the cache or to the run's [cache] field. *)
Definition isCacheCall {T : Type} (c : call M C T) : bool :=
  match c with
  | Cache_GetMachineAt _ | Cache_GetFinalMachine
  | Cache_SpawnCacheWithLimits _ _ | Run_SetCache _ => true
  | _ => false
  end.

(** The lookup that the goroutine of [GetStepAt] makes. *)
Definition stepLookupCall (position : Z) : @call M C StepResult :=
  if position =? sentinel then Cache_GetFinalMachine
  else Cache_GetMachineAt position.

Definition stepLookup (c : C) (position : Z) : C * (option M * option error) :=
  if position =? sentinel then GetFinalMachine c else GetMachineAt c position.

End Lookups.

(** ** Kinds of calls

    What a call is made on: the promise, or the machine; and, among the calls
    on the machine, those that read the fields of a step result. *)

Section CallKinds.

Context {M C T : Type}.

Definition isPromiseCall (c : call M C T) : bool :=
  match c with
  | Promise_Produce _ | Promise_ProduceError _ => true
  | _ => false
  end.

Definition isMachineCall (c : call M C T) : bool :=
  match c with
  | Machine_GetStepCount _ | Machine_IsRunning _ | Machine_Status _
  | Machine_GetGlobalState _ | Machine_Hash _ | Machine_ProveNextStep _ => true
  | _ => false
  end.

Definition isResultCall (c : call M C T) : bool :=
  match c with
  | Machine_Status _ | Machine_GetGlobalState _ | Machine_Hash _ => true
  | _ => false
  end.

End CallKinds.

(** ** Test doubles

    A machine that reports whatever its fields say, and a cache that answers
    every lookup from a script without looking at a machine. *)
Module Double.

Record machine : Type := mkMachine {
  stepCount : Z;
  running : bool;
  status : validator.MachineStatus;
  globalState : Z;
  hash : Z;
  proof : list Byte.byte
}.

#[global] Instance machine_interface : MachineInterface machine Z Z :=
  {| GetStepCount := stepCount;
     IsRunning := running;
     Status := status;
     GetGlobalState := globalState;
     Hash := hash;
     ProveNextStep := proof |}.

Record scripted : Type := mkScripted {
  answerAt : Z -> option machine * option error;
  answerFinal : option machine * option error;
  generation : Z
}.

#[global] Instance scripted_cache : MachineCacheInterface scripted machine :=
  {| GetMachineAt := fun c position => (c, answerAt c position);
     GetFinalMachine := fun c => (c, answerFinal c);
     SpawnCacheWithLimits := fun c _ _ =>
       (c, inl (mkScripted (answerAt c) (answerFinal c) (generation c + 1))) |}.

Definition overshot : machine :=
  mkMachine 7 true validator.Running 70 700 [Byte.x07].

Definition halted : machine :=
  mkMachine 10 false validator.Finished 100 1000 [Byte.x0a].

Definition exact : machine :=
  mkMachine 5 true validator.Running 50 500 [Byte.x05].

(** Hands back the overshot machine at positions 5 and 7, fails the
    lookup at position 6, and hands back the halted machine elsewhere. *)
Definition script : scripted :=
  mkScripted
    (fun position =>
       if position =? 5 then (Some overshot, None)
       else if position =? 6 then (None, Some "lookup failed"%string)
       else if position =? 7 then (Some overshot, None)
       else (Some halted, None))
    (Some halted, None)
    0.

Definition execution : executionRun scripted := mkExecutionRun script.

Definition stepAt (position : Z)
  : launched machine scripted Z Z (validator.MachineStepResult Z Z) :=
  GetStepAt position.

Definition proofAt (position : Z)
  : launched machine scripted Z Z (list Byte.byte) :=
  GetProofAt position.

End Double.

(** ** The checkpointed machine cache

    [machine_cache.go] is not part of the sources at hand.  What follows is
    the cache as the specification describes it, over any replay machine
    that can be advanced. *)

(** What advancing a machine gives: the machine further on, or the fault
    that stopped it. *)
Inductive advanced (M : Type) : Type :=
| Advanced (m : M)
| Faulted (e : error).

Arguments Advanced {M} m.
Arguments Faulted {M} e.

(** Modelled from the spec: the part of the machine capability that only
    the cache uses, [advance(n)].  A machine is a value here, so [clone()]
    is the machine itself. *)
Class ReplayMachine (M : Type) : Type := {
  Advance : M -> Z -> advanced M
}.

Module SpecCache.

(** Modelled from the spec: the recognized options of a cache. *)
Record MachineCacheConfig : Type := mkConfig {
  checkpointInterval : Z;
  maxCheckpoints : Z;
  rangeStart : option Z;
  rangeEnd : option Z
}.

Definition rangeError : error := "invalid range: start after end"%string.

Definition positionConsistencyError : error :=
  "internal consistency error: machine is not at the requested position"%string.

Section WithMachine.

Context {M GoGlobalState CommonHash : Type}.
Context {machines : MachineInterface M GoGlobalState CommonHash}.
Context {replay : ReplayMachine M}.

(** Modelled from the spec: a checkpoint is a position with the clone
    of the machine taken there. *)
Record Checkpoint : Type := mkCheckpoint {
  position : Z;
  snapshot : M
}.

(** Modelled from the spec: the cache.  [factory] is what the initial
    machine getter gives; it is asked at most once, so the cache holds
    its answer.  [served] is the position most recently served. *)
Record Cache : Type := mkCache {
  start : Z;
  end_ : option Z;
  checkpoints : list Checkpoint;
  live : option M;
  config : MachineCacheConfig;
  factory : advanced M;
  served : Z
}.

(** Modelled from the spec: a new cache has no checkpoint and no live
    machine yet. *)
Definition NewMachineCache (initialMachineGetter : advanced M)
  (cfg : MachineCacheConfig) : Cache :=
  {| start := match rangeStart cfg with Some s => s | None => 0 end;
     end_ := rangeEnd cfg;
     checkpoints := [];
     live := None;
     config := cfg;
     factory := initialMachineGetter;
     served := match rangeStart cfg with Some s => s | None => 0 end |}.

(** The checkpoint with the greatest position not beyond [p]. *)
Fixpoint nearestBelow (p : Z) (cps : list Checkpoint)
  (best : option Checkpoint) : option Checkpoint :=
  match cps with
  | [] => best
  | cp :: rest =>
      if position cp <=? p then
        match best with
        | Some b =>
            if position b <? position cp
            then nearestBelow p rest (Some cp)
            else nearestBelow p rest best
        | None => nearestBelow p rest (Some cp)
        end
      else nearestBelow p rest best
  end.

(** Modelled from the spec, step 2 of [getMachineAt]: the machine to
    start from. *)
Definition selectBase (c : Cache) (initial : M) (p : Z) : M :=
  if p <? start c then initial
  else match nearestBelow p (checkpoints c) None with
       | Some cp => snapshot cp
       | None => initial
       end.

(** Checkpoints are kept in the order of their positions, one for a
    position. *)
Fixpoint insertCheckpoint (cp : Checkpoint) (cps : list Checkpoint)
  : list Checkpoint :=
  match cps with
  | [] => [cp]
  | x :: rest =>
      if position cp <? position x then cp :: cps
      else if position cp =? position x then cps
      else x :: insertCheckpoint cp rest
  end.

Definition distance (a b : Z) : Z := Z.abs (a - b).

(** The position of the checkpoint furthest from [from]. *)
Fixpoint furthest (from : Z) (cps : list Checkpoint) (best : option Z)
  : option Z :=
  match cps with
  | [] => best
  | cp :: rest =>
      match best with
      | Some b =>
          if distance b from <? distance (position cp) from
          then furthest from rest (Some (position cp))
          else furthest from rest best
      | None => furthest from rest (Some (position cp))
      end
  end.

Fixpoint dropAt (p : Z) (cps : list Checkpoint) : list Checkpoint :=
  match cps with
  | [] => []
  | cp :: rest => if position cp =? p then rest else cp :: dropAt p rest
  end.

(** Modelled from the spec, step 3 of [getMachineAt]: beyond the bound
    on retained checkpoints, the one furthest from the position most
    recently served is given up. *)
Definition evict (cfg : MachineCacheConfig) (from : Z)
  (cps : list Checkpoint) : list Checkpoint :=
  if maxCheckpoints cfg <? Z.of_nat (List.length cps) then
    match furthest from cps None with
    | Some p => dropAt p cps
    | None => cps
    end
  else cps.

(** Modelled from the spec, step 3 of [getMachineAt]: a checkpoint is
    taken whenever the machine crosses a multiple of the interval. *)
Definition record (cfg : MachineCacheConfig) (from : Z) (m : M)
  (cps : list Checkpoint) : list Checkpoint :=
  if (0 <? checkpointInterval cfg)
     && (GetStepCount m mod checkpointInterval cfg =? 0)
  then evict cfg from (insertCheckpoint (mkCheckpoint (GetStepCount m) m) cps)
  else cps.

(** Where the stepping loop stands. *)
Inductive stepping : Type :=
| Going (m : M) (cps : list Checkpoint)
| Arrived (m : M) (cps : list Checkpoint)
| Broken (m : M) (e : error) (cps : list Checkpoint).

(** Modelled from the spec, steps 3 and 4 of [getMachineAt]: one round
    of the loop that advances the live machine towards [p]. *)
Definition stepOnce (cfg : MachineCacheConfig) (from p : Z) (m : M)
  (cps : list Checkpoint) : stepping :=
  if (GetStepCount m <? p) && IsRunning m then
    match Advance m 1 with
    | Advanced m' => Going m' (record cfg from m' cps)
    | Faulted e => Broken m e cps
    end
  else Arrived m cps.

(** At most [n] rounds of the loop.  The count is binary and a loop
    that has ended is left at once, so that a far target costs no more
    than the steps the machine really takes. *)
Fixpoint rounds (cfg : MachineCacheConfig) (from p : Z) (n : positive)
  (s : stepping) : stepping :=
  match s with
  | Going m cps =>
      match n with
      | xH => stepOnce cfg from p m cps
      | xO q => rounds cfg from p q (rounds cfg from p q s)
      | xI q =>
          rounds cfg from p q
            (rounds cfg from p q (stepOnce cfg from p m cps))
      end
  | _ => s
  end.

(** The loop: no machine needs more rounds than its distance to the
    target. *)
Definition advanceTo (cfg : MachineCacheConfig) (from p : Z) (base : M)
  (cps : list Checkpoint) : stepping :=
  match p - GetStepCount base with
  | Zpos n => rounds cfg from p n (Going base cps)
  | _ => Going base cps
  end.

(** Modelled from the spec, step 5 of [getMachineAt]. *)
Definition misplaced (p : Z) (m : M) : bool :=
  (GetStepCount m >? p) || (IsRunning m && negb (GetStepCount m =? p)).

(** Modelled from the spec, steps 2 to 6 of [getMachineAt]. *)
Definition locate (c : Cache) (p : Z)
  : Cache * (option M * option error) :=
  match factory c with
  | Faulted e => (c, (None, Some e))
  | Advanced initial =>
      let base := selectBase c initial p in
      let leave (m : M) (cps : list Checkpoint) (at_ : Z) : Cache :=
        mkCache (start c) (end_ c) cps (Some m) (config c) (factory c) at_ in
      match advanceTo (config c) (served c) p base (checkpoints c) with
      | Broken m e cps => (leave m cps (served c), (None, Some e))
      | Going m cps | Arrived m cps =>
          if misplaced p m
          then (leave m cps (served c), (None, Some positionConsistencyError))
          else (leave m cps (GetStepCount m), (Some m, None))
      end
  end.

(** Modelled from the spec: [getFinalMachine], the same as a request
    for the sentinel position. *)
Definition getFinalMachine (c : Cache) : Cache * (option M * option error) :=
  locate c sentinel.

(** Modelled from the spec: [getMachineAt]. *)
Definition getMachineAt (c : Cache) (p : Z)
  : Cache * (option M * option error) :=
  if p =? sentinel then getFinalMachine c else locate c p.

(** Modelled from the spec: [spawnWithRange], with the result the spec
    gives it, a cache or an error. *)
Definition spawnWithRange (c : Cache) (start_ finish : Z)
  : Cache * (Cache + error) :=
  if finish <? start_ then (c, inr rangeError)
  else
    let (c', answer) := getMachineAt c start_ in
    let cfg := mkConfig (checkpointInterval (config c))
                        (maxCheckpoints (config c))
                        (Some start_) (Some finish) in
    match answer with
    | (_, Some e) => (c', inr e)
    | (Some m, None) => (c', inl (NewMachineCache (Advanced m) cfg))
    | (None, None) => (c', inr positionConsistencyError)
    end.

(** The cache as the execution run calls it.  [SpawnCacheWithLimits] is
    [spawnWithRange]: its error is the call failing, as the spec has it. *)
#[global] Instance cache_interface : MachineCacheInterface Cache M :=
  {| GetMachineAt := getMachineAt;
     GetFinalMachine := getFinalMachine;
     SpawnCacheWithLimits := spawnWithRange |}.

(** [NewExecutionRun(ctxIn, initialMachineGetter, config)]: a run with a new
    cache. *)
Definition NewExecutionRun (initialMachineGetter : advanced M)
  (cfg : MachineCacheConfig) : executionRun Cache :=
  mkExecutionRun (NewMachineCache initialMachineGetter cfg).

(** *** What the properties of the cache are stated with *)

(** The stepping loop with a unary count of rounds. *)
Fixpoint roundsNat (cfg : MachineCacheConfig) (from p : Z) (n : nat)
  (s : stepping) : stepping :=
  match n with
  | O => s
  | S k =>
      match s with
      | Going m cps => roundsNat cfg from p k (stepOnce cfg from p m cps)
      | _ => s
      end
  end.

(** Where a machine gets to in at most [n] steps towards [p], whatever
    checkpoints are taken on the way. *)
Fixpoint reach (p : Z) (n : nat) (m : M) : advanced M :=
  match n with
  | O => Advanced m
  | S k =>
      if (GetStepCount m <? p) && IsRunning m then
        match Advance m 1 with
        | Advanced m' => reach p k m'
        | Faulted e => Faulted e
        end
      else Advanced m
  end.

Definition machineOf (s : stepping) : advanced M :=
  match s with
  | Going m _ | Arrived m _ => Advanced m
  | Broken _ e _ => Faulted e
  end.

Definition checkpointsOf (s : stepping) : list Checkpoint :=
  match s with
  | Going _ cps | Arrived _ cps | Broken _ _ cps => cps
  end.

(** The answer of a lookup for [p] that found the machine in [a]. *)
Definition answerOf (p : Z) (a : advanced M) : option M * option error :=
  match a with
  | Faulted e => (None, Some e)
  | Advanced m =>
      if misplaced p m then (None, Some positionConsistencyError)
      else (Some m, None)
  end.

(** The answer for [p] of a cache without any checkpoint. *)
Definition directAnswer (initialMachineGetter : advanced M) (p : Z)
  : option M * option error :=
  match initialMachineGetter with
  | Faulted e => (None, Some e)
  | Advanced initial =>
      answerOf p (reach p (Z.to_nat (p - GetStepCount initial)) initial)
  end.

(** The machines that the initial machine runs through. *)
Inductive onTrack (initial : M) : M -> Prop :=
| onTrack_initial : onTrack initial initial
| onTrack_next (m m' : M) :
    onTrack initial m ->
    IsRunning m = true ->
    Advance m 1 = Advanced m' ->
    onTrack initial m'.

Definition sound (initial : M) (cp : Checkpoint) : Prop :=
  onTrack initial (snapshot cp) /\ position cp = GetStepCount (snapshot cp).

(** Every checkpoint of the cache is a machine that its initial machine
    runs through, filed under its step count. *)
Definition consistent (c : Cache) : Prop :=
  match factory c with
  | Advanced initial => Forall (sound initial) (checkpoints c)
  | Faulted _ => True
  end.

(** A state of the loop whose machine is on the track and whose
    checkpoints are sound. *)
Definition soundStepping (initial : M) (s : stepping) : Prop :=
  Forall (sound initial) (checkpointsOf s)
  /\ match s with
     | Going m _ | Arrived m _ => onTrack initial m
     | Broken _ _ _ => True
     end.

(** [later c0 c]: [c] is the cache [c0] after some lookups, that is, the
    same cache generation at a later time. *)
Inductive later (c0 : Cache) : Cache -> Prop :=
| later_now : later c0 c0
| later_getMachineAt (c : Cache) (p : Z) :
    later c0 c -> later c0 (fst (getMachineAt c p))
| later_getFinalMachine (c : Cache) :
    later c0 c -> later c0 (fst (getFinalMachine c)).

(** A step of a running machine moves its step count on by one. *)
Class CountsSteps : Prop :=
  counts_steps : forall m m' : M,
    IsRunning m = true ->
    Advance m 1 = Advanced m' ->
    GetStepCount m' = GetStepCount m + 1.

End WithMachine.

Arguments Checkpoint : clear implicits.
Arguments Cache : clear implicits.
Arguments CountsSteps M {GoGlobalState CommonHash machines replay}.

End SpecCache.

(** ** A machine to try the cache on: it counts up to a limit and halts *)

Module Counter.

Record machine : Type := mkMachine {
  count : Z;
  limit : Z
}.

Definition runs (m : machine) : bool := count m <? limit m.

#[global] Instance machine_interface : MachineInterface machine Z Z :=
  {| GetStepCount := count;
     IsRunning := runs;
     Status := fun m => if runs m then validator.Running else validator.Finished;
     GetGlobalState := fun m => 2 * count m;
     Hash := fun m => 31 * count m + 7;
     ProveNextStep := fun m => [Byte.x01] |}.

#[global] Instance replay : ReplayMachine machine :=
  {| Advance := fun m n =>
       Advanced (mkMachine (Z.min (limit m) (count m + Z.max 0 n)) (limit m)) |}.

Definition genesis : machine := mkMachine 0 10.

Definition fresh : SpecCache.Cache machine :=
  SpecCache.NewMachineCache (Advanced genesis)
    (SpecCache.mkConfig 2 2 None None).

Definition execution : executionRun (SpecCache.Cache machine) :=
  SpecCache.NewExecutionRun (Advanced genesis) (SpecCache.mkConfig 2 2 None None).

Definition stepAt (position : Z)
  : launched machine (SpecCache.Cache machine) Z Z (validator.MachineStepResult Z Z) :=
  GetStepAt position.

End Counter.

(** * Properties *)

Section RunLemmas.

Context {M C GoGlobalState CommonHash : Type}.
Context {machines : MachineInterface M GoGlobalState CommonHash}.
Context {caches : MachineCacheInterface C M}.

Local Abbreviation StepResult := (validator.MachineStepResult GoGlobalState CommonHash).
Local Abbreviation prog := (prog M C GoGlobalState CommonHash).

(** Running a sequence: the calls of the first part, then those of the
    second, unless the first part panics. *)
Lemma run_pbind {T A B : Type} (p : prog T A) (f : A -> prog T B) (w : world C T) :
  run (pbind p f) w =
  match ending (run p w) with
  | Returned a =>
      let o := run (f a) (final (run p w)) in
      mkOutcome (final o) (trace (run p w) ++ trace o) (ending o)
  | Panicked msg => mkOutcome (final (run p w)) (trace (run p w)) (Panicked msg)
  end.
Proof.
  revert w. induction p as [r | c k IH | msg]; intros w; simpl.
  - destruct (run (f r) w); reflexivity.
  - destruct (handle c w) as [w' [x | msg]]; [| reflexivity].
    rewrite IH. destruct (ending (run (k x) w')); reflexivity.
  - reflexivity.
Qed.

Lemma consumeMachine_error (reqPosition : Z) (machine : option M) (e : error)
  (w : world C StepResult) :
  run (consumeMachine reqPosition machine (Some e)) w =
  mkOutcome (mkWorld (theRun w) (ProduceError (thePromise w) e))
            [Promise_ProduceError e] (Returned tt).
Proof. reflexivity. Qed.

Lemma consumeMachine_nil (reqPosition : Z) (w : world C StepResult) :
  run (consumeMachine reqPosition None None) w =
  mkOutcome w [] (Panicked nilDereference).
Proof. reflexivity. Qed.

Lemma consumeMachine_rejects (reqPosition : Z) (m : M) (w : world C StepResult) :
  wrongPosition reqPosition m = true ->
  run (consumeMachine reqPosition (Some m) None) w =
  mkOutcome
    (mkWorld (theRun w)
       (ProduceError (thePromise w)
          (wrongPositionError reqPosition (GetStepCount m))))
    [Machine_GetStepCount m; Machine_IsRunning m; Machine_GetStepCount m;
     Promise_ProduceError (wrongPositionError reqPosition (GetStepCount m))]
    (Returned tt).
Proof.
  unfold wrongPosition. intros Hw.
  unfold consumeMachine. simpl.
  destruct (reqPosition =? GetStepCount m); simpl in *.
  - discriminate.
  - rewrite Hw. reflexivity.
Qed.

Lemma consumeMachine_accepts (reqPosition : Z) (m : M) (w : world C StepResult) :
  wrongPosition reqPosition m = false ->
  run (consumeMachine reqPosition (Some m) None) w =
  mkOutcome
    (mkWorld (theRun w) (Produce (thePromise w) (resultOf m)))
    (Machine_GetStepCount m
     :: (if reqPosition =? GetStepCount m then [] else [Machine_IsRunning m])
     ++ [Machine_Status m; Machine_GetGlobalState m; Machine_Hash m;
         Promise_Produce (resultOf m)])
    (Returned tt).
Proof.
  unfold wrongPosition. intros Hw.
  unfold consumeMachine. simpl.
  destruct (reqPosition =? GetStepCount m); simpl in *.
  - reflexivity.
  - rewrite Hw. reflexivity.
Qed.

(** What [consumeMachine] leaves behind, case by case. *)
Lemma consumeMachine_cases (reqPosition : Z) (machine : option M)
  (err : option error) (w : world C StepResult) :
  let o := run (consumeMachine reqPosition machine err) w in
  match err, machine with
  | Some e, _ =>
      o = mkOutcome (mkWorld (theRun w) (ProduceError (thePromise w) e))
            [Promise_ProduceError e] (Returned tt)
  | None, None => o = mkOutcome w [] (Panicked nilDereference)
  | None, Some m =>
      if wrongPosition reqPosition m
      then o = mkOutcome
                 (mkWorld (theRun w)
                    (ProduceError (thePromise w)
                       (wrongPositionError reqPosition (GetStepCount m))))
                 [Machine_GetStepCount m; Machine_IsRunning m;
                  Machine_GetStepCount m;
                  Promise_ProduceError
                    (wrongPositionError reqPosition (GetStepCount m))]
                 (Returned tt)
      else o = mkOutcome
                 (mkWorld (theRun w) (Produce (thePromise w) (resultOf m)))
                 (Machine_GetStepCount m
                  :: (if reqPosition =? GetStepCount m then []
                      else [Machine_IsRunning m])
                  ++ [Machine_Status m; Machine_GetGlobalState m;
                      Machine_Hash m; Promise_Produce (resultOf m)])
                 (Returned tt)
  end.
Proof.
  destruct err as [e |]; [apply consumeMachine_error |].
  destruct machine as [m |]; [| apply consumeMachine_nil].
  destruct (wrongPosition reqPosition m) eqn:Hw.
  - apply consumeMachine_rejects, Hw.
  - apply consumeMachine_accepts, Hw.
Qed.

Lemma consumeMachine_no_cache_call (reqPosition : Z) (machine : option M)
  (err : option error) (w : world C StepResult) :
  forallb (fun c => negb (isCacheCall c))
    (trace (run (consumeMachine reqPosition machine err) w)) = true.
Proof.
  pose proof (consumeMachine_cases reqPosition machine err w) as H.
  cbv zeta in H.
  destruct err as [e |]; [rewrite H; reflexivity |].
  destruct machine as [m |]; [| rewrite H; reflexivity].
  destruct (wrongPosition reqPosition m); rewrite H; [reflexivity |].
  simpl. destruct (reqPosition =? GetStepCount m); reflexivity.
Qed.

Lemma complement_zero : Uint64.complement 0 = sentinel.
Proof. reflexivity. Qed.

Lemma resolve_GetStepAt (e : executionRun C) (position : Z) :
  resolve (GetStepAt position) e =
  let o := run (consumeMachine position
                  (fst (snd (stepLookup (cache e) position)))
                  (snd (snd (stepLookup (cache e) position))))
               (mkWorld (mkExecutionRun (fst (stepLookup (cache e) position)))
                        Pending) in
  mkOutcome (final o) (stepLookupCall position :: trace o) (ending o).
Proof.
  unfold resolve, GetStepAt, stepLookup, stepLookupCall.
  cbn [thread promise]. rewrite complement_zero.
  destruct (position =? sentinel); cbn -[consumeMachine sentinel]; unfold onCache;
    cbn -[consumeMachine sentinel].
  - destruct (GetFinalMachine (cache e)) as [c' [mach err]]. reflexivity.
  - destruct (GetMachineAt (cache e) position) as [c' [mach err]]. reflexivity.
Qed.

Lemma resolve_GetProofAt (e : executionRun C) (position : Z) :
  resolve (GetProofAt position) e =
  let c' := fst (GetMachineAt (cache e) position) in
  let w := mkWorld (mkExecutionRun c') Pending in
  match snd (GetMachineAt (cache e) position) with
  | (_, Some err) =>
      mkOutcome (mkWorld (mkExecutionRun c') (Failed err))
        [Cache_GetMachineAt position; Promise_ProduceError err] (Returned tt)
  | (Some m, None) =>
      mkOutcome (mkWorld (mkExecutionRun c') (Fulfilled (ProveNextStep m)))
        [Cache_GetMachineAt position; Machine_ProveNextStep m;
         Promise_Produce (ProveNextStep m)] (Returned tt)
  | (None, None) =>
      mkOutcome w [Cache_GetMachineAt position] (Panicked nilDereference)
  end.
Proof.
  unfold resolve, GetProofAt. cbn. unfold onCache. cbn.
  destruct (GetMachineAt (cache e) position) as [c' [[m |] [err |]]];
    reflexivity.
Qed.

End RunLemmas.

(** ** Step queries *)

Section StepQueries.

Context {M C GoGlobalState CommonHash : Type}.
Context {machines : MachineInterface M GoGlobalState CommonHash}.
Context {caches : MachineCacheInterface C M}.

Local Abbreviation StepResult := (validator.MachineStepResult GoGlobalState CommonHash).

Lemma wrongPosition_true (reqPosition : Z) (m : M) :
  GetStepCount m > reqPosition
  \/ (IsRunning m = true /\ GetStepCount m <> reqPosition) ->
  wrongPosition reqPosition m = true.
Proof.
  unfold wrongPosition. intros H.
  destruct (Z.eqb_spec reqPosition (GetStepCount m)) as [E | N]; simpl.
  - destruct H as [H | [_ H]]; [lia | congruence].
  - destruct H as [H | [H _]].
    + replace (GetStepCount m >? reqPosition) with true
        by (symmetry; apply Z.gtb_lt; lia).
      apply orb_true_r.
    + rewrite H. reflexivity.
Qed.

Lemma wrongPosition_false (reqPosition : Z) (m : M) :
  GetStepCount m = reqPosition
  \/ (IsRunning m = false /\ GetStepCount m <= reqPosition) ->
  wrongPosition reqPosition m = false.
Proof.
  unfold wrongPosition. intros H.
  destruct (Z.eqb_spec reqPosition (GetStepCount m)) as [E | N]; simpl.
  - reflexivity.
  - destruct H as [H | [H L]]; [congruence |].
    rewrite H. simpl. rewrite Z.gtb_ltb. apply Z.ltb_ge. exact L.
Qed.

Lemma no_produce_in {T : Type} (l : list (call M C T)) :
  forallb (fun c => match c with Promise_Produce _ => false | _ => true end) l
  = true ->
  forall v, ~ In (Promise_Produce v) l.
Proof.
  intros H v Hin. rewrite forallb_forall in H.
  specialize (H _ Hin). discriminate.
Qed.

(** C1: a step query for a position other than the sentinel, whose lookup
    hands back a machine that is beyond the requested position, or still
    running at another position, is resolved as failed with the
    wrong-position error, and no step result is produced. *)
Theorem getStepAt_wrong_position_fails
  (e : executionRun C) (position : Z) (m : M) :
  position <> sentinel ->
  snd (GetMachineAt (cache e) position) = (Some m, None) ->
  GetStepCount m > position
  \/ (IsRunning m = true /\ GetStepCount m <> position) ->
  resolution (GetStepAt position) e
  = Failed (wrongPositionError position (GetStepCount m))
  /\ (forall v : StepResult,
        ~ In (Promise_Produce v) (trace (resolve (GetStepAt position) e))).
Proof.
  intros Hs Hl Hw. apply wrongPosition_true in Hw.
  unfold resolution. rewrite resolve_GetStepAt.
  unfold stepLookup, stepLookupCall.
  destruct (Z.eqb_spec position sentinel) as [E | _]; [contradiction |].
  rewrite Hl. cbn [fst snd].
  rewrite (consumeMachine_rejects _ _ _ Hw). cbn.
  split; [reflexivity |].
  intros v [H | [H | [H | [H | [H | []]]]]]; discriminate.
Qed.

(** C2: a step query for position [p] whose lookup hands back a machine
    that halted at step [H <= p] (its step count is [H] and it is not
    running) is fulfilled, not failed, with a result whose position is
    [H] and whose status is the status of the machine. *)
Theorem getStepAt_halted_early
  (e : executionRun C) (p H : Z) (m : M) :
  snd (if p =? sentinel then GetFinalMachine (cache e)
       else GetMachineAt (cache e) p) = (Some m, None) ->
  GetStepCount m = H ->
  IsRunning m = false ->
  H <= p ->
  resolution (GetStepAt p) e
  = Fulfilled {| validator.Position := H;
                 validator.Status := Status m;
                 validator.GlobalState := GetGlobalState m;
                 validator.Hash := Hash m |}.
Proof.
  intros Hl Hc Hr Hle.
  assert (Hw : wrongPosition p m = false)
    by (apply wrongPosition_false; right; split; [assumption | lia]).
  unfold resolution. rewrite resolve_GetStepAt.
  unfold stepLookup. rewrite Hl. cbn [fst snd].
  rewrite (consumeMachine_accepts _ _ _ Hw). cbn.
  unfold resultOf. rewrite Hc. reflexivity.
Qed.

(** C9: when the machine handed to [consumeMachine] is exactly at the
    requested position, the result is produced and no error is: the
    machine is not even asked whether it is running. *)
Theorem consumeMachine_exact_position
  (reqPosition : Z) (m : M) (w : world C StepResult) :
  GetStepCount m = reqPosition ->
  run (consumeMachine reqPosition (Some m) None) w
  = mkOutcome
      (mkWorld (theRun w)
         (Produce (thePromise w)
            {| validator.Position := reqPosition;
               validator.Status := Status m;
               validator.GlobalState := GetGlobalState m;
               validator.Hash := Hash m |}))
      [Machine_GetStepCount m; Machine_Status m; Machine_GetGlobalState m;
       Machine_Hash m;
       Promise_Produce {| validator.Position := reqPosition;
                         validator.Status := Status m;
                         validator.GlobalState := GetGlobalState m;
                         validator.Hash := Hash m |}]
      (Returned tt).
Proof.
  intros Hc.
  rewrite consumeMachine_accepts by (apply wrongPosition_false; auto).
  unfold resultOf. rewrite Hc, Z.eqb_refl. reflexivity.
Qed.

Lemma not_cache_call_in {T : Type} (l : list (call M C T)) :
  forallb (fun c => negb (isCacheCall c)) l = true ->
  forall c, In c l -> isCacheCall c = false.
Proof.
  intros H c Hin. rewrite forallb_forall in H.
  apply negb_true_iff, H, Hin.
Qed.

(** C4: a step query for the sentinel position (the [uint64] with all bits
    set) asks the cache for its final machine and hands that answer to
    [consumeMachine]; it never asks for the machine at a position. *)
Theorem getStepAt_sentinel_runs_to_completion (e : executionRun C) :
  sentinel = 18446744073709551615
  /\ (let answer := GetFinalMachine (cache e) in
      let o := run (consumeMachine sentinel (fst (snd answer)) (snd (snd answer)))
                   (mkWorld (mkExecutionRun (fst answer)) NewPromise) in
      resolve (GetStepAt sentinel) e
      = mkOutcome (final o) (Cache_GetFinalMachine :: trace o) (ending o))
  /\ (forall position : Z,
        ~ In (Cache_GetMachineAt position)
             (trace (resolve (GetStepAt sentinel) e))).
Proof.
  split; [reflexivity |].
  rewrite resolve_GetStepAt. unfold stepLookup, stepLookupCall.
  rewrite Z.eqb_refl. split; [reflexivity |].
  intros position. cbn [trace]. intros [H | H]; [discriminate |].
  apply (not_cache_call_in _ (consumeMachine_no_cache_call _ _ _ _)) in H.
  discriminate.
Qed.

(** C7: [GetLastStep] is [GetStepAt] at the sentinel position: it hands
    back the same promise and the same goroutine, so against every run it
    resolves the same way. *)
Theorem getLastStep_is_getStepAt_sentinel :
  @GetLastStep M C GoGlobalState CommonHash = getLastStep_spec
  /\ (forall e : executionRun C,
        resolve GetLastStep e = resolve (GetStepAt sentinel) e).
Proof.
  unfold GetLastStep, getLastStep_spec. rewrite complement_zero.
  split; reflexivity.
Qed.

End StepQueries.

(** ** Proof queries *)

Section ProofQueries.

Context {M C GoGlobalState CommonHash : Type}.
Context {machines : MachineInterface M GoGlobalState CommonHash}.
Context {caches : MachineCacheInterface C M}.

Local Abbreviation StepResult := (validator.MachineStepResult GoGlobalState CommonHash).
Local Abbreviation GetProofAt :=
  (@GetProofAt M C GoGlobalState CommonHash).

(** C8: a proof query for position [p] asks the cache for the machine at
    [p]; when the lookup succeeds it asks that machine for the proof of
    its next step and fulfils the promise with exactly those bytes; when
    the lookup fails it fails the promise with the lookup's error and does
    not ask any machine for a proof. *)
Theorem getProofAt_proves_next_step (e : executionRun C) (p : Z) :
  let o := resolve (GetProofAt p) e in
  match snd (GetMachineAt (cache e) p) with
  | (_, Some err) =>
      trace o = [Cache_GetMachineAt p; Promise_ProduceError err]
      /\ thePromise (final o) = Failed err
  | (Some m, None) =>
      trace o = [Cache_GetMachineAt p; Machine_ProveNextStep m;
                 Promise_Produce (ProveNextStep m)]
      /\ thePromise (final o) = Fulfilled (ProveNextStep m)
  | (None, None) =>
      trace o = [Cache_GetMachineAt p] /\ ending o = Panicked nilDereference
  end.
Proof.
  cbv zeta. rewrite resolve_GetProofAt. cbv zeta.
  destruct (snd (GetMachineAt (cache e) p)) as [[m |] [err |]];
    split; reflexivity.
Qed.

(** C10: for every position [p], the sentinel included, a proof query
    first asks the cache for the machine at [p]; what follows are calls
    for the proof and on the promise only: it never asks for the final
    machine, and never asks the machine for its step count or whether it
    is running, which is what the check of a step query consists of.  A
    machine that a step query rejects is asked for its proof all the
    same. *)
Theorem getProofAt_no_sentinel_no_validation (e : executionRun C) (p : Z) :
  (exists rest,
      trace (resolve (GetProofAt p) e) = Cache_GetMachineAt p :: rest
      /\ Forall (fun c => match c with
                          | Machine_ProveNextStep _
                          | Promise_Produce _
                          | Promise_ProduceError _ => True
                          | _ => False
                          end) rest)
  /\ (exists rest,
      trace (resolve (GetProofAt sentinel) e)
      = Cache_GetMachineAt sentinel :: rest
      /\ ~ In Cache_GetFinalMachine rest)
  /\ (forall m : M,
      snd (GetMachineAt (cache e) p) = (Some m, None) ->
      wrongPosition p m = true ->
      resolution (GetProofAt p) e = Fulfilled (ProveNextStep m)).
Proof.
  split; [| split].
  - rewrite resolve_GetProofAt. cbv zeta.
    destruct (snd (GetMachineAt (cache e) p)) as [[m |] [err |]];
      eexists; (split; [reflexivity |]); repeat constructor.
  - rewrite resolve_GetProofAt. cbv zeta.
    destruct (snd (GetMachineAt (cache e) sentinel)) as [[m |] [err |]];
      eexists; (split; [reflexivity |]); cbn; intuition discriminate.
  - intros m Hl _. unfold resolution. rewrite resolve_GetProofAt.
    cbv zeta. rewrite Hl. reflexivity.
Qed.

End ProofQueries.

(** ** Errors *)

Section Errors.

Context {M C GoGlobalState CommonHash : Type}.
Context {machines : MachineInterface M GoGlobalState CommonHash}.
Context {caches : MachineCacheInterface C M}.

Local Abbreviation StepResult := (validator.MachineStepResult GoGlobalState CommonHash).
Local Abbreviation GetProofAt :=
  (@GetProofAt M C GoGlobalState CommonHash).
Local Abbreviation GetStepAt :=
  (@GetStepAt M C GoGlobalState CommonHash).

(** C5: an error that comes up while a query is served fails the promise
    of that query with that error, and no value is produced next to it:
    so for a lookup that fails in a step query, for a lookup that fails in
    a proof query, and for whatever error either goroutine reports. *)
Theorem query_errors_fail_the_promise
  (e : executionRun C) (position : Z) (err : error) :
  (forall mach,
      snd (stepLookup (cache e) position) = (mach, Some err) ->
      resolution (GetStepAt position) e = Failed err
      /\ forall v, ~ In (Promise_Produce v)
                        (trace (resolve (GetStepAt position) e)))
  /\ (forall mach,
      snd (GetMachineAt (cache e) position) = (mach, Some err) ->
      resolution (GetProofAt position) e = Failed err
      /\ forall v, ~ In (Promise_Produce v)
                        (trace (resolve (GetProofAt position) e)))
  /\ (In (Promise_ProduceError err) (trace (resolve (GetStepAt position) e)) ->
      resolution (GetStepAt position) e = Failed err
      /\ forall v, ~ In (Promise_Produce v)
                        (trace (resolve (GetStepAt position) e)))
  /\ (In (Promise_ProduceError err) (trace (resolve (GetProofAt position) e)) ->
      resolution (GetProofAt position) e = Failed err
      /\ forall v, ~ In (Promise_Produce v)
                        (trace (resolve (GetProofAt position) e))).
Proof.
  split; [| split; [| split]].
  - intros mach Hl. unfold resolution. rewrite resolve_GetStepAt.
    rewrite Hl. cbn [fst snd]. rewrite consumeMachine_error.
    split; [reflexivity |]. unfold stepLookupCall.
    intros v. destruct (position =? sentinel);
      intros [H | [H | []]]; discriminate.
  - intros mach Hl. unfold resolution. rewrite resolve_GetProofAt.
    cbv zeta. rewrite Hl.
    destruct mach; (split; [reflexivity |]);
      intros v [H | [H | []]]; discriminate.
  - unfold resolution. rewrite resolve_GetStepAt. cbv zeta.
    set (a := stepLookup (cache e) position).
    pose proof (consumeMachine_cases position (fst (snd a)) (snd (snd a))
                  (mkWorld (mkExecutionRun (fst a)) Pending)) as Hc.
    cbv zeta in Hc. unfold stepLookupCall.
    destruct (snd (snd a)) as [e' |].
    + rewrite Hc; cbn [trace final thePromise In ProduceError].
      intros [H | [H | []]];
        [destruct (position =? sentinel); discriminate |].
      injection H as ->. split; [reflexivity |].
      intros v. destruct (position =? sentinel);
        intros [H | [H | []]]; discriminate.
    + destruct (fst (snd a)) as [m |].
      * destruct (wrongPosition position m); rewrite Hc;
          cbn [trace final thePromise In ProduceError].
        -- intros [H | [H | [H | [H | [H | []]]]]];
             try discriminate;
             [destruct (position =? sentinel); discriminate |].
           injection H as <-. split; [reflexivity |].
           intros v. destruct (position =? sentinel);
             intros [H | [H | [H | [H | [H | []]]]]]; discriminate.
        -- intros [H | [H | H]];
             [destruct (position =? sentinel); discriminate
             | discriminate |].
           exfalso. apply in_app_or in H. destruct H as [H | H].
           ++ destruct (position =? GetStepCount m);
                [destruct H | destruct H as [H | []]; discriminate].
           ++ destruct H as [H | [H | [H | [H | []]]]]; discriminate.
      * rewrite Hc; cbn [trace final thePromise In ProduceError].
        intros [H | []]. destruct (position =? sentinel); discriminate.
  - unfold resolution. rewrite resolve_GetProofAt. cbv zeta.
    destruct (snd (GetMachineAt (cache e) position)) as [[m |] [e' |]]; cbn.
    + intros [H | [H | []]]; [discriminate |]. injection H as ->.
      split; [reflexivity |]. intros v [H | [H | []]]; discriminate.
    + intros [H | [H | [H | []]]]; discriminate.
    + intros [H | [H | []]]; [discriminate |]. injection H as ->.
      split; [reflexivity |]. intros v [H | [H | []]]; discriminate.
    + intros [H | []]; discriminate.
Qed.

End Errors.

(** ** The checkpointed cache *)

Module SpecCacheFacts.

Import SpecCache.

Section WithMachine.

Context {M GoGlobalState CommonHash : Type}.
Context {machines : MachineInterface M GoGlobalState CommonHash}.
Context {replay : ReplayMachine M}.

Local Abbreviation Cache := (Cache M).
Local Abbreviation Checkpoint := (Checkpoint M).
Local Abbreviation stepping := (@stepping M).

(** *** The binary count of rounds against the unary one *)

Lemma roundsNat_ended (cfg : MachineCacheConfig) (from p : Z) (n : nat)
  (s : stepping) :
  (forall m cps, s <> Going m cps) -> roundsNat cfg from p n s = s.
Proof.
  intros H. destruct n as [| k]; [reflexivity |].
  destruct s; [exfalso; eapply H; reflexivity | reflexivity | reflexivity].
Qed.

Lemma roundsNat_add (cfg : MachineCacheConfig) (from p : Z) (a b : nat)
  (s : stepping) :
  roundsNat cfg from p (a + b) s
  = roundsNat cfg from p b (roundsNat cfg from p a s).
Proof.
  revert s. induction a as [| a IH]; intros s; [reflexivity |].
  cbn [Nat.add roundsNat]. destruct s as [m cps | m cps | m e cps].
  - apply IH.
  - symmetry. apply roundsNat_ended. discriminate.
  - symmetry. apply roundsNat_ended. discriminate.
Qed.

Lemma rounds_roundsNat (cfg : MachineCacheConfig) (from p : Z)
  (n : positive) (s : stepping) :
  rounds cfg from p n s = roundsNat cfg from p (Pos.to_nat n) s.
Proof.
  revert s. induction n as [q IH | q IH |]; intros s.
  - rewrite Pos2Nat.inj_xI.
    replace (S (2 * Pos.to_nat q)) with (1 + (Pos.to_nat q + Pos.to_nat q))%nat
      by lia.
    destruct s as [m cps | m cps | m e cps]; cbn [rounds].
    + rewrite !IH, roundsNat_add, roundsNat_add. reflexivity.
    + symmetry. apply roundsNat_ended. discriminate.
    + symmetry. apply roundsNat_ended. discriminate.
  - rewrite Pos2Nat.inj_xO.
    replace (2 * Pos.to_nat q)%nat with (Pos.to_nat q + Pos.to_nat q)%nat
      by lia.
    destruct s as [m cps | m cps | m e cps]; cbn [rounds].
    + rewrite !IH, roundsNat_add. reflexivity.
    + symmetry. apply roundsNat_ended. discriminate.
    + symmetry. apply roundsNat_ended. discriminate.
  - destruct s; reflexivity.
Qed.

Lemma advanceTo_roundsNat (cfg : MachineCacheConfig) (from p : Z)
  (base : M) (cps : list Checkpoint) :
  advanceTo cfg from p base cps
  = roundsNat cfg from p (Z.to_nat (p - GetStepCount base)) (Going base cps).
Proof.
  unfold advanceTo. destruct (p - GetStepCount base) as [| n | n];
    [reflexivity | | reflexivity].
  rewrite rounds_roundsNat. reflexivity.
Qed.

(** *** The machine found does not depend on the checkpoints *)

Lemma machineOf_roundsNat (cfg : MachineCacheConfig) (from p : Z) (n : nat)
  (m : M) (cps : list Checkpoint) :
  machineOf (roundsNat cfg from p n (Going m cps)) = reach p n m.
Proof.
  revert m cps. induction n as [| k IH]; intros m cps; [reflexivity |].
  cbn [roundsNat reach]. unfold stepOnce.
  destruct ((GetStepCount m <? p) && IsRunning m).
  - destruct (Advance m 1) as [m' | e].
    + apply IH.
    + rewrite roundsNat_ended by discriminate. reflexivity.
  - rewrite roundsNat_ended by discriminate. reflexivity.
Qed.

(** *** Starting from a checkpoint instead of the initial machine *)

Section Tracks.

Context {counting : CountsSteps M}.

Lemma onTrack_count (initial m : M) :
  onTrack initial m -> GetStepCount initial <= GetStepCount m.
Proof.
  induction 1 as [| m m' _ IH Hr Ha]; [lia |].
  rewrite (counting m m' Hr Ha). lia.
Qed.

Lemma reach_from_track (initial s : M) (p : Z) :
  onTrack initial s ->
  GetStepCount s <= p ->
  reach p (Z.to_nat (p - GetStepCount initial)) initial
  = reach p (Z.to_nat (p - GetStepCount s)) s.
Proof.
  induction 1 as [| m m' Ht IH Hr Ha]; intros Hle; [reflexivity |].
  pose proof (counting m m' Hr Ha) as Hc.
  rewrite IH by lia.
  replace (Z.to_nat (p - GetStepCount m))
    with (S (Z.to_nat (p - GetStepCount m'))) by lia.
  cbn [reach]. rewrite Hr, Ha.
  replace (GetStepCount m <? p) with true
    by (symmetry; apply Z.ltb_lt; lia).
  reflexivity.
Qed.

(** The count of rounds does not cut the loop short: when the rounds
    are used up, the loop has nothing left to do. *)
Lemma reach_arrives (p : Z) (n : nat) (m m' : M) :
  (p - GetStepCount m <= Z.of_nat n) ->
  reach p n m = Advanced m' ->
  (GetStepCount m' <? p) && IsRunning m' = false.
Proof.
  revert m. induction n as [| k IH]; intros m Hn; cbn [reach].
  - intros [= <-]. replace (GetStepCount m <? p) with false
      by (symmetry; apply Z.ltb_ge; lia).
    reflexivity.
  - destruct ((GetStepCount m <? p) && IsRunning m) eqn:Ht.
    + apply andb_true_iff in Ht. destruct Ht as [_ Hr].
      destruct (Advance m 1) as [m1 | e] eqn:Ha; [| discriminate].
      apply IH. rewrite (counting m m1 Hr Ha). lia.
    + intros [= <-]. exact Ht.
Qed.

End Tracks.

Lemma advanceTo_arrives {counting : CountsSteps M}
  (cfg : MachineCacheConfig) (from p : Z) (base m : M) (cps : list Checkpoint) :
  machineOf (advanceTo cfg from p base cps) = Advanced m ->
  (GetStepCount m <? p) && IsRunning m = false.
Proof.
  rewrite advanceTo_roundsNat, machineOf_roundsNat.
  apply reach_arrives. lia.
Qed.

(** *** The checkpoints stay sound *)

Lemma nearestBelow_from (p : Z) (cps : list Checkpoint)
  (best : option Checkpoint) (P : Checkpoint -> Prop) :
  Forall P cps ->
  (forall b, best = Some b -> P b /\ position b <= p) ->
  forall cp, nearestBelow p cps best = Some cp -> P cp /\ position cp <= p.
Proof.
  intros Hall. revert best.
  induction Hall as [| x rest Hx _ IH]; intros best Hb cp; cbn [nearestBelow].
  - apply Hb.
  - destruct (Z.leb_spec (position x) p) as [Hle | _]; [| apply IH, Hb].
    destruct best as [b |].
    + destruct (position b <? position x); apply IH.
      * intros b' [= <-]. split; assumption.
      * exact Hb.
    + apply IH. intros b' [= <-]. split; assumption.
Qed.

Lemma insertCheckpoint_Forall (P : Checkpoint -> Prop) (cp : Checkpoint)
  (cps : list Checkpoint) :
  P cp -> Forall P cps -> Forall P (insertCheckpoint cp cps).
Proof.
  intros Hcp Hall. induction Hall as [| x rest Hx Hrest IH];
    cbn [insertCheckpoint].
  - constructor; [assumption | constructor].
  - destruct (position cp <? position x);
      [constructor; [assumption | constructor; assumption] |].
    destruct (position cp =? position x); constructor; assumption.
Qed.

Lemma dropAt_Forall (P : Checkpoint -> Prop) (p : Z) (cps : list Checkpoint) :
  Forall P cps -> Forall P (dropAt p cps).
Proof.
  induction 1 as [| x rest Hx Hrest IH]; cbn [dropAt]; [constructor |].
  destruct (position x =? p); [assumption | constructor; assumption].
Qed.

Lemma evict_Forall (P : Checkpoint -> Prop) (cfg : MachineCacheConfig)
  (from : Z) (cps : list Checkpoint) :
  Forall P cps -> Forall P (evict cfg from cps).
Proof.
  intros H. unfold evict.
  destruct (maxCheckpoints cfg <? Z.of_nat (List.length cps)); [| assumption].
  destruct (furthest from cps None); [apply dropAt_Forall |]; assumption.
Qed.

Lemma record_sound (initial : M) (cfg : MachineCacheConfig) (from : Z)
  (m : M) (cps : list Checkpoint) :
  onTrack initial m ->
  Forall (sound initial) cps ->
  Forall (sound initial) (record cfg from m cps).
Proof.
  intros Hm Hall. unfold record.
  destruct ((0 <? checkpointInterval cfg)
            && (GetStepCount m mod checkpointInterval cfg =? 0));
    [| assumption].
  apply evict_Forall, insertCheckpoint_Forall; [| assumption].
  split; [assumption | reflexivity].
Qed.

Lemma roundsNat_sound (initial : M) (cfg : MachineCacheConfig)
  (from p : Z) (n : nat) (s : stepping) :
  soundStepping initial s ->
  soundStepping initial (roundsNat cfg from p n s).
Proof.
  revert s. induction n as [| k IH]; intros s Hs; [assumption |].
  cbn [roundsNat]. destruct s as [m cps | m cps | m e cps]; try assumption.
  destruct Hs as [Hall Hm]. cbn in Hall.
  apply IH. unfold stepOnce.
  destruct ((GetStepCount m <? p) && IsRunning m) eqn:Ht.
  - apply andb_true_iff in Ht. destruct Ht as [_ Hr].
    destruct (Advance m 1) as [m' | e] eqn:Ha.
    + assert (onTrack initial m') by (eapply onTrack_next; eassumption).
      split; [apply record_sound; assumption | assumption].
    + split; [assumption | exact I].
  - split; assumption.
Qed.

(** *** What a lookup answers and what it leaves *)

Section Lookups.

Context {counting : CountsSteps M}.

Lemma selectBase_track (c : Cache) (initial : M) (p : Z) :
  Forall (sound initial) (checkpoints c) ->
  onTrack initial (selectBase c initial p)
  /\ (selectBase c initial p = initial
      \/ GetStepCount (selectBase c initial p) <= p).
Proof.
  intros Hall. unfold selectBase.
  destruct (p <? start c); [split; [constructor | left; reflexivity] |].
  destruct (nearestBelow p (checkpoints c) None) as [cp |] eqn:Hn;
    [| split; [constructor | left; reflexivity]].
  destruct (nearestBelow_from p (checkpoints c) None (sound initial)
              Hall ltac:(discriminate) cp Hn) as [[Ht Hp] Hle].
  split; [exact Ht | right; lia].
Qed.

Lemma locate_shape (c : Cache) (initial : M) (p : Z) :
  factory c = Advanced initial ->
  let s := advanceTo (config c) (served c) p (selectBase c initial p)
             (checkpoints c) in
  snd (locate c p) = answerOf p (machineOf s)
  /\ checkpoints (fst (locate c p)) = checkpointsOf s
  /\ factory (fst (locate c p)) = factory c
  /\ config (fst (locate c p)) = config c.
Proof.
  intros Hf. cbv zeta. unfold locate. rewrite Hf.
  destruct (advanceTo (config c) (served c) p (selectBase c initial p)
              (checkpoints c)) as [m cps | m cps | m e cps];
    cbn [machineOf checkpointsOf answerOf];
    try destruct (misplaced p m); cbn; rewrite ?Hf; auto.
Qed.

(** A lookup in a consistent cache answers as a cache without
    checkpoints would, and leaves the cache consistent. *)
Lemma locate_direct (c : Cache) (p : Z) :
  consistent c ->
  snd (locate c p) = directAnswer (factory c) p
  /\ consistent (fst (locate c p))
  /\ factory (fst (locate c p)) = factory c.
Proof.
  unfold consistent, directAnswer.
  destruct (factory c) as [initial | e] eqn:Hf.
  - intros Hall.
    destruct (locate_shape c initial p Hf) as (Ha & Hc & Hf' & _).
    destruct (selectBase_track c initial p Hall) as [Ht Hb].
    rewrite advanceTo_roundsNat in Ha, Hc.
    rewrite Ha, Hf', Hf, Hc, machineOf_roundsNat.
    split; [| split; [| reflexivity]].
    + destruct Hb as [-> | Hle]; [reflexivity |].
      rewrite (reach_from_track initial _ p Ht Hle). reflexivity.
    + apply roundsNat_sound. split; [exact Hall | exact Ht].
  - intros _. unfold locate. rewrite Hf. cbn. rewrite Hf. auto.
Qed.

Lemma getMachineAt_locate (c : Cache) (p : Z) :
  getMachineAt c p = locate c p.
Proof.
  unfold getMachineAt, getFinalMachine.
  destruct (Z.eqb_spec p sentinel) as [-> | _]; reflexivity.
Qed.

Lemma later_consistent (c0 c : Cache) :
  consistent c0 ->
  later c0 c ->
  consistent c /\ factory c = factory c0.
Proof.
  intros H0. induction 1 as [| c p _ [IHc IHf] | c _ [IHc IHf]].
  - split; [assumption | reflexivity].
  - rewrite getMachineAt_locate.
    destruct (locate_direct c p IHc) as (_ & Hc & Hf).
    split; [assumption | congruence].
  - unfold getFinalMachine.
    destruct (locate_direct c sentinel IHc) as (_ & Hc & Hf).
    split; [assumption | congruence].
Qed.

Lemma fresh_consistent (c0 : Cache) :
  checkpoints c0 = [] -> consistent c0.
Proof.
  intros H. unfold consistent. rewrite H.
  destruct (factory c0); [constructor | exact I].
Qed.

(** The answer of a cache generation to a lookup is the same at all
    times. *)
Lemma stepLookup_later (c0 c : Cache) (p : Z) :
  checkpoints c0 = [] ->
  later c0 c ->
  snd (stepLookup c p) = directAnswer (factory c0) p.
Proof.
  intros H0 Hl.
  destruct (later_consistent c0 c (fresh_consistent c0 H0) Hl) as [Hc Hf].
  unfold stepLookup. cbn [GetFinalMachine GetMachineAt cache_interface].
  rewrite getMachineAt_locate. unfold getFinalMachine.
  destruct (Z.eqb_spec p sentinel) as [-> | _];
    rewrite (proj1 (locate_direct c _ Hc)), Hf; reflexivity.
Qed.

End Lookups.

(** *** Step queries against the cache *)

Local Abbreviation StepResult := (validator.MachineStepResult GoGlobalState CommonHash).
Local Abbreviation GetStepAt := (@GetStepAt M Cache GoGlobalState CommonHash).

Lemma resolution_by_answer (e1 e2 : executionRun Cache) (p : Z) :
  snd (stepLookup (cache e1) p) = snd (stepLookup (cache e2) p) ->
  resolution (GetStepAt p) e1 = resolution (GetStepAt p) e2.
Proof.
  intros Heq. unfold resolution. rewrite !resolve_GetStepAt. cbv zeta.
  cbn [final]. rewrite Heq.
  set (a := snd (stepLookup (cache e2) p)).
  pose proof (consumeMachine_cases p (fst a) (snd a)
                (mkWorld
                   (mkExecutionRun (fst (stepLookup (cache e1) p)))
                   (@Pending StepResult))) as H1.
  pose proof (consumeMachine_cases p (fst a) (snd a)
                (mkWorld
                   (mkExecutionRun (fst (stepLookup (cache e2) p)))
                   (@Pending StepResult))) as H2.
  cbv zeta in H1, H2.
  destruct (snd a) as [err |]; [rewrite H1, H2; reflexivity |].
  destruct (fst a) as [m |]; [| rewrite H1, H2; reflexivity].
  destruct (wrongPosition p m); rewrite H1, H2; reflexivity.
Qed.

(** C3: two step queries for the same position against the same cache
    generation, each at whatever time, resolve to the same value: the
    same position, status, global state and hash when they are
    fulfilled, the same error when they fail.  The machine is
    deterministic (advancing it is a function) and counts its steps. *)
Theorem getStepAt_deterministic {counting : CountsSteps M}
  (initialMachineGetter : advanced M) (cfg : MachineCacheConfig)
  (c1 c2 : Cache) (p : Z) :
  later (NewMachineCache initialMachineGetter cfg) c1 ->
  later (NewMachineCache initialMachineGetter cfg) c2 ->
  resolution (GetStepAt p) (mkExecutionRun c1)
  = resolution (GetStepAt p) (mkExecutionRun c2).
Proof.
  intros H1 H2. apply resolution_by_answer. cbn [cache].
  rewrite (stepLookup_later (NewMachineCache initialMachineGetter cfg) c1 p
             eq_refl H1).
  rewrite (stepLookup_later (NewMachineCache initialMachineGetter cfg) c2 p
             eq_refl H2).
  reflexivity.
Qed.

(** A machine that halts at step [H] is what every query for a position
    from [H] on is answered with, at whatever time of the cache
    generation. *)
Theorem halted_machine_answers_later_positions {counting : CountsSteps M}
  (initial halted : M) (cfg : MachineCacheConfig) (c : Cache) (p : Z) :
  onTrack initial halted ->
  IsRunning halted = false ->
  GetStepCount halted <= p ->
  later (NewMachineCache (Advanced initial) cfg) c ->
  resolution (GetStepAt p) (mkExecutionRun c) = Fulfilled (resultOf halted).
Proof.
  intros Ht Hr Hle Hl.
  assert (Ha : snd (stepLookup c p) = (Some halted, None)).
  { rewrite (stepLookup_later (NewMachineCache (Advanced initial) cfg) c p
               eq_refl Hl).
    cbn [factory NewMachineCache directAnswer].
    rewrite (reach_from_track initial halted p Ht Hle).
    assert (Hreach : forall n, reach p n halted = Advanced halted).
    { intros [| n]; [reflexivity |]. cbn [reach].
      rewrite Hr, andb_false_r. reflexivity. }
    rewrite Hreach. cbn [answerOf]. unfold misplaced.
    rewrite Hr. cbn [andb orb].
    replace (GetStepCount halted >? p) with false
      by (symmetry; rewrite Z.gtb_ltb; apply Z.ltb_ge; exact Hle).
    reflexivity. }
  unfold resolution. rewrite resolve_GetStepAt. cbv zeta. cbn [cache final].
  rewrite Ha. cbn [fst snd].
  rewrite consumeMachine_accepts; [reflexivity |].
  unfold wrongPosition. rewrite Hr. cbn [andb orb].
  replace (GetStepCount halted >? p) with false
    by (symmetry; rewrite Z.gtb_ltb; apply Z.ltb_ge; exact Hle).
  apply andb_false_r.
Qed.

End WithMachine.

End SpecCacheFacts.

(** ** Runs on the test doubles and on the counting machine *)

Module Examples.

Import SpecCache.

Lemma getStepAt_wrong_position_fails_witness :
  5 <> sentinel
  /\ snd (GetMachineAt (cache Double.execution) 5) = (Some Double.overshot, None)
  /\ (GetStepCount Double.overshot > 5
      \/ (IsRunning Double.overshot = true /\ GetStepCount Double.overshot <> 5))
  /\ resolution (Double.stepAt 5) Double.execution = Failed (wrongPositionError 5 7)
  /\ (forall v, ~ In (Promise_Produce v)
                    (trace (resolve (Double.stepAt 5) Double.execution))).
Proof.
  assert (H1 : 5 <> sentinel) by (intros H; vm_compute in H; discriminate).
  assert (H2 : snd (GetMachineAt (cache Double.execution) 5)
               = (Some Double.overshot, None)) by reflexivity.
  assert (H3 : GetStepCount Double.overshot > 5
               \/ (IsRunning Double.overshot = true
                   /\ GetStepCount Double.overshot <> 5))
    by (left; reflexivity).
  split; [exact H1 |]. split; [exact H2 |]. split; [exact H3 |].
  exact (getStepAt_wrong_position_fails Double.execution 5 Double.overshot H1 H2 H3).
Defined.

Lemma getStepAt_halted_early_witness :
  snd (if 20 =? sentinel then GetFinalMachine (cache Double.execution)
       else GetMachineAt (cache Double.execution) 20) = (Some Double.halted, None)
  /\ GetStepCount Double.halted = 10
  /\ IsRunning Double.halted = false
  /\ 10 <= 20
  /\ resolution (Double.stepAt 20) Double.execution
     = Fulfilled {| validator.Position := 10; validator.Status := validator.Finished;
                    validator.GlobalState := 100; validator.Hash := 1000 |}.
Proof.
  assert (H4 : 10 <= 20) by (intros H; discriminate).
  split; [reflexivity |]. split; [reflexivity |]. split; [reflexivity |].
  split; [exact H4 |].
  exact (getStepAt_halted_early Double.execution 20 10 Double.halted
           eq_refl eq_refl eq_refl H4).
Defined.

Lemma consumeMachine_exact_position_witness :
  GetStepCount Double.exact = 5
  /\ IsRunning Double.exact = true
  /\ thePromise
       (final (run (@consumeMachine Double.machine Double.scripted Z Z
                      5 (Some Double.exact) None)
                   (mkWorld Double.execution Pending)))
     = Fulfilled {| validator.Position := 5; validator.Status := validator.Running;
                    validator.GlobalState := 50; validator.Hash := 500 |}.
Proof.
  split; [reflexivity |]. split; [reflexivity |].
  assert (H : GetStepCount Double.exact = 5) by reflexivity.
  rewrite (consumeMachine_exact_position 5 Double.exact
             (mkWorld Double.execution Pending) H).
  reflexivity.
Defined.

Lemma query_errors_fail_the_promise_witness :
  snd (stepLookup (cache Double.execution) 6) = (None, Some "lookup failed"%string)
  /\ resolution (Double.stepAt 6) Double.execution = Failed "lookup failed"%string
  /\ resolution (Double.proofAt 6) Double.execution = Failed "lookup failed"%string
  /\ (forall v, ~ In (Promise_Produce v)
                    (trace (resolve (Double.stepAt 6) Double.execution)))
  /\ (forall v, ~ In (Promise_Produce v)
                    (trace (resolve (Double.proofAt 6) Double.execution))).
Proof.
  destruct (query_errors_fail_the_promise Double.execution 6 "lookup failed"%string)
    as (Hstep & Hproof & _ & _).
  destruct (Hstep None eq_refl) as [Hs1 Hs2].
  destruct (Hproof None eq_refl) as [Hp1 Hp2].
  split; [reflexivity |]. split; [exact Hs1 |]. split; [exact Hp1 |].
  split; [exact Hs2 | exact Hp2].
Defined.

Lemma getProofAt_no_sentinel_no_validation_witness :
  snd (GetMachineAt (cache Double.execution) 5) = (Some Double.overshot, None)
  /\ wrongPosition 5 Double.overshot = true
  /\ resolution (Double.proofAt 5) Double.execution = Fulfilled [Byte.x07].
Proof.
  destruct (getProofAt_no_sentinel_no_validation Double.execution 5) as (_ & _ & H).
  split; [reflexivity |]. split; [reflexivity |].
  exact (H Double.overshot eq_refl eq_refl).
Defined.

Lemma counter_counts_steps : CountsSteps Counter.machine.
Proof.
  intros m m' Hr Ha. cbn in *. unfold Counter.runs in Hr.
  apply Z.ltb_lt in Hr. injection Ha as <-. cbn. lia.
Qed.

Lemma getStepAt_deterministic_witness :
  later Counter.fresh (fst (getMachineAt (fst (getMachineAt Counter.fresh 9)) 5))
  /\ resolution (Counter.stepAt 5) Counter.execution
     = resolution (Counter.stepAt 5)
         (mkExecutionRun (fst (getMachineAt (fst (getMachineAt Counter.fresh 9)) 5))).
Proof.
  assert (H : later Counter.fresh
                (fst (getMachineAt (fst (getMachineAt Counter.fresh 9)) 5)))
    by (apply later_getMachineAt, later_getMachineAt, later_now).
  split; [exact H |].
  exact (SpecCacheFacts.getStepAt_deterministic (counting := counter_counts_steps)
           (Advanced Counter.genesis) (mkConfig 2 2 None None)
           Counter.fresh _ 5 (later_now _) H).
Defined.

(** The counting machine halts after 10 steps: a query for step 10 and a
    query for step 20 are both answered with step 10, finished. *)
Example halts_after_ten_steps :
  resolution (Counter.stepAt 10) Counter.execution
  = Fulfilled {| validator.Position := 10; validator.Status := validator.Finished;
                 validator.GlobalState := 20; validator.Hash := 317 |}
  /\ resolution (Counter.stepAt 20) Counter.execution
     = Fulfilled {| validator.Position := 10; validator.Status := validator.Finished;
                    validator.GlobalState := 20; validator.Hash := 317 |}.
Proof. split; reflexivity. Qed.

(** The last step of the counting machine, and the calls that find it. *)
Example last_step_of_counter :
  resolve (@GetLastStep Counter.machine (Cache Counter.machine) Z Z)
          Counter.execution
  = resolve (Counter.stepAt sentinel) Counter.execution
  /\ trace (resolve (Counter.stepAt sentinel) Counter.execution)
     = [Cache_GetFinalMachine;
        Machine_GetStepCount (Counter.mkMachine 10 10);
        Machine_IsRunning (Counter.mkMachine 10 10);
        Machine_Status (Counter.mkMachine 10 10);
        Machine_GetGlobalState (Counter.mkMachine 10 10);
        Machine_Hash (Counter.mkMachine 10 10);
        Promise_Produce {| validator.Position := 10;
                          validator.Status := validator.Finished;
                          validator.GlobalState := 20; validator.Hash := 317 |}].
Proof. split; reflexivity. Qed.

(** A query for step 7 after a query for step 9 starts from the checkpoint
    at step 6 and leaves the checkpoints nearest to it. *)
Example checkpoints_after_two_queries :
  map position
    (checkpoints
       (fst (getMachineAt (fst (getMachineAt Counter.fresh 9)) 7)))
  = [4; 6].
Proof. reflexivity. Qed.

End Examples.

(** ** More on the queries *)

Section QueryFacts.

Context {M C GoGlobalState CommonHash : Type}.
Context {machines : MachineInterface M GoGlobalState CommonHash}.
Context {caches : MachineCacheInterface C M}.

Local Abbreviation StepResult :=
  (validator.MachineStepResult GoGlobalState CommonHash).
Local Abbreviation GetStepAt := (@GetStepAt M C GoGlobalState CommonHash).
Local Abbreviation GetProofAt := (@GetProofAt M C GoGlobalState CommonHash).
Local Abbreviation lastStep := (@GetLastStep M C GoGlobalState CommonHash).

(** The rejection test of [consumeMachine], without the comparison that its
    outer test makes redundant. *)
Lemma wrongPosition_iff (reqPosition : Z) (m : M) :
  wrongPosition reqPosition m = true
  <-> GetStepCount m <> reqPosition
      /\ (IsRunning m = true \/ GetStepCount m > reqPosition).
Proof.
  unfold wrongPosition.
  destruct (Z.eqb_spec reqPosition (GetStepCount m)) as [E | N]; cbn [negb andb].
  - split; [discriminate | intros [H _]; congruence].
  - rewrite andb_true_r, orb_true_iff, Z.gtb_ltb, Z.ltb_lt.
    split.
    + intros [H | H]; (split; [congruence |]); [left; exact H | right; lia].
    + intros [_ [H | H]]; [left; exact H | right; lia].
Qed.

(** What a step query leaves, for each answer of its lookup. *)
Lemma resolve_GetStepAt_cases (e : executionRun C) (position : Z) :
  let a := stepLookup (cache e) position in
  let o := resolve (GetStepAt position) e in
  let after (pr : Promise StepResult) : world C StepResult :=
    mkWorld (mkExecutionRun (fst a)) pr in
  match snd a with
  | (_, Some err) =>
      o = mkOutcome (after (Failed err))
            [stepLookupCall position; Promise_ProduceError err] (Returned tt)
  | (None, None) =>
      o = mkOutcome (after Pending) [stepLookupCall position]
            (Panicked nilDereference)
  | (Some m, None) =>
      if wrongPosition position m
      then o = mkOutcome
                 (after (Failed (wrongPositionError position (GetStepCount m))))
                 [stepLookupCall position;
                  Machine_GetStepCount m; Machine_IsRunning m;
                  Machine_GetStepCount m;
                  Promise_ProduceError
                    (wrongPositionError position (GetStepCount m))]
                 (Returned tt)
      else o = mkOutcome (after (Fulfilled (resultOf m)))
                 (stepLookupCall position
                  :: Machine_GetStepCount m
                  :: (if position =? GetStepCount m then []
                      else [Machine_IsRunning m])
                  ++ [Machine_Status m; Machine_GetGlobalState m;
                      Machine_Hash m; Promise_Produce (resultOf m)])
                 (Returned tt)
  end.
Proof.
  cbv zeta. rewrite resolve_GetStepAt. cbv zeta.
  set (a := stepLookup (cache e) position).
  pose proof (consumeMachine_cases position (fst (snd a)) (snd (snd a))
                (mkWorld (mkExecutionRun (fst a)) (@Pending StepResult))) as Hc.
  cbv zeta in Hc.
  destruct (snd a) as [[m |] [err |]]; cbn [fst snd] in *;
    try (rewrite Hc; reflexivity).
  destruct (wrongPosition position m); rewrite Hc; reflexivity.
Qed.

(** X1: the goroutine of a step query settles the promise exactly once:
    whenever it returns, it has made one call on the promise, no more, and
    the promise is no longer pending.  It makes none only when it panics,
    and it panics only when the lookup hands back neither a machine nor an
    error. *)
Theorem getStepAt_settles_promise_once (e : executionRun C) (position : Z) :
  let o := resolve (GetStepAt position) e in
  match snd (stepLookup (cache e) position) with
  | (None, None) =>
      ending o = Panicked nilDereference
      /\ filter isPromiseCall (trace o) = []
  | _ =>
      ending o = Returned tt
      /\ List.length (filter isPromiseCall (trace o)) = 1%nat
      /\ thePromise (final o) <> Pending
  end.
Proof.
  pose proof (resolve_GetStepAt_cases e position) as H. cbv zeta in *.
  assert (Hl : isPromiseCall (stepLookupCall (C := C) (M := M)
                                (GoGlobalState := GoGlobalState)
                                (CommonHash := CommonHash) position) = false)
    by (unfold stepLookupCall; destruct (position =? sentinel); reflexivity).
  destruct (snd (stepLookup (cache e) position)) as [[m |] [err |]].
  - rewrite H. cbn. rewrite Hl. repeat split; discriminate.
  - destruct (wrongPosition position m); rewrite H; cbn; rewrite Hl.
    + repeat split; discriminate.
    + destruct (position =? GetStepCount m); cbn; repeat split; discriminate.
  - rewrite H. cbn. rewrite Hl. repeat split; discriminate.
  - rewrite H. cbn. rewrite Hl. split; reflexivity.
Qed.

(** X2: the goroutine of a proof query settles the promise exactly once in
    the same way: one call on the promise whenever it returns, none only
    when it panics on a lookup that hands back neither a machine nor an
    error. *)
Theorem getProofAt_settles_promise_once (e : executionRun C) (position : Z) :
  let o := resolve (GetProofAt position) e in
  match snd (GetMachineAt (cache e) position) with
  | (None, None) =>
      ending o = Panicked nilDereference
      /\ filter isPromiseCall (trace o) = []
  | _ =>
      ending o = Returned tt
      /\ List.length (filter isPromiseCall (trace o)) = 1%nat
      /\ thePromise (final o) <> Pending
  end.
Proof.
  cbv zeta. rewrite resolve_GetProofAt. cbv zeta.
  destruct (snd (GetMachineAt (cache e) position)) as [[m |] [err |]]; cbn;
    repeat split; discriminate.
Qed.

(** X3: a step query that is fulfilled carries what one machine, the one the
    lookup handed back, reports of itself; its position is never beyond the
    requested one, and it is short of it only for a machine that is not
    running. *)
Theorem getStepAt_fulfilled_not_beyond
  (e : executionRun C) (position : Z) (r : StepResult) :
  resolution (GetStepAt position) e = Fulfilled r ->
  exists m : M,
    snd (stepLookup (cache e) position) = (Some m, None)
    /\ r = {| validator.Position := GetStepCount m;
              validator.Status := Status m;
              validator.GlobalState := GetGlobalState m;
              validator.Hash := Hash m |}
    /\ validator.Position r <= position
    /\ (validator.Position r = position \/ IsRunning m = false).
Proof.
  unfold resolution.
  pose proof (resolve_GetStepAt_cases e position) as H. cbv zeta in H.
  destruct (snd (stepLookup (cache e) position)) as [[m |] [err |]];
    try (rewrite H; cbn; discriminate).
  destruct (wrongPosition position m) eqn:Hw; rewrite H; cbn;
    [discriminate |].
  intros [= <-]. exists m. split; [reflexivity |]. split; [reflexivity |].
  cbn [validator.Position resultOf].
  assert (Hn : ~ (GetStepCount m <> position
                  /\ (IsRunning m = true \/ GetStepCount m > position))).
  { rewrite <- wrongPosition_iff, Hw. discriminate. }
  destruct (Z.eq_dec (GetStepCount m) position) as [E | N];
    [split; [lia | left; exact E] |].
  destruct (IsRunning m) eqn:Hr; [exfalso; apply Hn; auto |].
  split; [| right; reflexivity].
  destruct (Z_le_gt_dec (GetStepCount m) position) as [L | G]; [exact L |].
  exfalso. apply Hn. auto.
Qed.

(** X4: a step query fails for one of two reasons only: the lookup failed,
    and the error is the one of the lookup; or the machine handed back is
    not at the requested position while it is still running or already
    beyond it, and the error is the wrong-position error with both
    positions. *)
Theorem getStepAt_failure_reasons
  (e : executionRun C) (position : Z) (err : error) :
  resolution (GetStepAt position) e = Failed err ->
  (exists mach, snd (stepLookup (cache e) position) = (mach, Some err))
  \/ (exists m : M,
        snd (stepLookup (cache e) position) = (Some m, None)
        /\ err = wrongPositionError position (GetStepCount m)
        /\ GetStepCount m <> position
        /\ (IsRunning m = true \/ GetStepCount m > position)).
Proof.
  unfold resolution.
  pose proof (resolve_GetStepAt_cases e position) as H. cbv zeta in H.
  destruct (snd (stepLookup (cache e) position)) as [[m |] [lerr |]].
  - rewrite H. cbn. intros [= <-]. left. exists (Some m). reflexivity.
  - destruct (wrongPosition position m) eqn:Hw; rewrite H; cbn;
      [| discriminate].
    intros [= <-]. right. exists m.
    apply wrongPosition_iff in Hw. destruct Hw as [Hne Hor].
    repeat split; assumption.
  - rewrite H. cbn. intros [= <-]. left. exists None. reflexivity.
  - rewrite H. cbn. discriminate.
Qed.

(** X5: for the last step, no final machine can be beyond the requested
    position, which is the greatest [uint64]: a final machine that is not
    running is accepted at whatever step count, and one that is still
    running is rejected unless it stands at the greatest [uint64] itself. *)
Theorem getLastStep_rejects_only_running (e : executionRun C) (m : M) :
  snd (GetFinalMachine (cache e)) = (Some m, None) ->
  0 <= GetStepCount m < Uint64.modulus ->
  resolution lastStep e
  = if IsRunning m && negb (GetStepCount m =? Uint64.complement 0)
    then Failed (wrongPositionError (Uint64.complement 0) (GetStepCount m))
    else Fulfilled {| validator.Position := GetStepCount m;
                      validator.Status := Status m;
                      validator.GlobalState := GetGlobalState m;
                      validator.Hash := Hash m |}.
Proof.
  intros Hl Hrange. unfold GetLastStep, resolution.
  pose proof (resolve_GetStepAt_cases e (Uint64.complement 0)) as H.
  cbv zeta in H. rewrite complement_zero in *.
  unfold stepLookup in H. rewrite Z.eqb_refl, Hl in H.
  assert (Hw : wrongPosition sentinel m
               = IsRunning m && negb (GetStepCount m =? sentinel)).
  { unfold wrongPosition.
    replace (GetStepCount m >? sentinel) with false
      by (symmetry; rewrite Z.gtb_ltb; apply Z.ltb_ge;
          change sentinel with (Uint64.modulus - 1); lia).
    rewrite orb_false_r, (Z.eqb_sym sentinel).
    destruct (GetStepCount m =? sentinel), (IsRunning m); reflexivity. }
  rewrite Hw in H.
  destruct (IsRunning m && negb (GetStepCount m =? sentinel));
    rewrite H; reflexivity.
Qed.

(** X7: a query looks the cache up once and does nothing else with it: the
    only call on the cache in the run of a step query is its lookup, in the
    run of a proof query the lookup of the machine at the position; neither
    spawns a cache or stores one in the run, which is left holding the
    cache as the lookup left it. *)
Theorem queries_look_up_once (e : executionRun C) (position : Z) :
  filter isCacheCall (trace (resolve (GetStepAt position) e))
  = [stepLookupCall position]
  /\ theRun (final (resolve (GetStepAt position) e))
     = mkExecutionRun (fst (stepLookup (cache e) position))
  /\ filter isCacheCall (trace (resolve (GetProofAt position) e))
     = [Cache_GetMachineAt position]
  /\ theRun (final (resolve (GetProofAt position) e))
     = mkExecutionRun (fst (GetMachineAt (cache e) position)).
Proof.
  assert (Hl : isCacheCall (stepLookupCall (C := C) (M := M)
                              (GoGlobalState := GoGlobalState)
                              (CommonHash := CommonHash) position) = true)
    by (unfold stepLookupCall; destruct (position =? sentinel); reflexivity).
  split; [| split; [| split]].
  - pose proof (resolve_GetStepAt_cases e position) as H. cbv zeta in H.
    destruct (snd (stepLookup (cache e) position)) as [[m |] [err |]];
      try (rewrite H; cbn; rewrite Hl; reflexivity).
    destruct (wrongPosition position m); rewrite H; cbn; rewrite Hl;
      [reflexivity |].
    destruct (position =? GetStepCount m); reflexivity.
  - pose proof (resolve_GetStepAt_cases e position) as H. cbv zeta in H.
    destruct (snd (stepLookup (cache e) position)) as [[m |] [err |]];
      try (rewrite H; reflexivity).
    destruct (wrongPosition position m); rewrite H; reflexivity.
  - rewrite resolve_GetProofAt. cbv zeta.
    destruct (snd (GetMachineAt (cache e) position)) as [[m |] [err |]];
      reflexivity.
  - rewrite resolve_GetProofAt. cbv zeta.
    destruct (snd (GetMachineAt (cache e) position)) as [[m |] [err |]];
      reflexivity.
Qed.

(** X8: a step query asks the machine for its status, its global state and
    its hash only to fulfil the promise, and then once each, in this order
    and of the machine whose step count became the position of the result;
    a query that fails, for whatever reason, asks for none of them. *)
Theorem getStepAt_reads_result_fields_once (e : executionRun C) (position : Z) :
  let o := resolve (GetStepAt position) e in
  match thePromise (final o) with
  | Fulfilled r =>
      exists m : M,
        validator.Position r = GetStepCount m
        /\ filter isResultCall (trace o)
           = [Machine_Status m; Machine_GetGlobalState m; Machine_Hash m]
  | _ => filter isResultCall (trace o) = []
  end.
Proof.
  assert (Hl : isResultCall (stepLookupCall (C := C) (M := M)
                               (GoGlobalState := GoGlobalState)
                               (CommonHash := CommonHash) position) = false)
    by (unfold stepLookupCall; destruct (position =? sentinel); reflexivity).
  pose proof (resolve_GetStepAt_cases e position) as H. cbv zeta in *.
  destruct (snd (stepLookup (cache e) position)) as [[m |] [err |]];
    try (rewrite H; cbn; rewrite Hl; reflexivity).
  destruct (wrongPosition position m); rewrite H; cbn; rewrite Hl;
    [reflexivity |].
  exists m. split; [reflexivity |].
  destruct (position =? GetStepCount m); reflexivity.
Qed.

End QueryFacts.

(** ** Preparing a range *)

Section RangeFacts.

Context {M C GoGlobalState CommonHash : Type}.
Context {machines : MachineInterface M GoGlobalState CommonHash}.
Context {caches : MachineCacheInterface C M}.

Local Abbreviation prepare T start end_ :=
  (@PrepareRange M C GoGlobalState CommonHash T start end_).

(** [PrepareRange] stores the cache that the call hands back; when the call
    does not return, nothing is stored and the method ends with the call. *)
Lemma run_PrepareRange {T : Type} (w : world C T) (start end_ : Z) :
  run (prepare T start end_) w
  = match SpawnCacheWithLimits (cache (theRun w)) start end_ with
    | (_, inl newCache) =>
        mkOutcome (mkWorld (mkExecutionRun newCache) (thePromise w))
          [Cache_SpawnCacheWithLimits start end_; Run_SetCache newCache]
          (Returned tt)
    | (c', inr err) =>
        mkOutcome (mkWorld (mkExecutionRun c') (thePromise w))
          [Cache_SpawnCacheWithLimits start end_]
          (Panicked err)
    end.
Proof.
  unfold PrepareRange. cbn. unfold onCache. cbn.
  destruct (SpawnCacheWithLimits (cache (theRun w)) start end_)
    as [c' [newCache | err]]; reflexivity.
Qed.

(** X6: ranges nest: a second [PrepareRange] spawns its cache from the cache
    that the first one stored, not from the cache the run had before, and
    of the cache it is called on nothing is kept but the cache spawned from
    it.  A query made afterwards looks up the cache spawned last.  A call
    that does not return ends the sequence where it stands. *)
Theorem prepareRange_twice_nests {T : Type}
  (e : executionRun C) (pr : Promise T) (start1 end1 start2 end2 : Z) :
  let o := run (prepare T start1 end1 ;; prepare T start2 end2)
               (mkWorld e pr) in
  match SpawnCacheWithLimits (cache e) start1 end1 with
  | (c0, inr err) =>
      o = mkOutcome (mkWorld (mkExecutionRun c0) pr)
            [Cache_SpawnCacheWithLimits start1 end1] (Panicked err)
  | (_, inl c1) =>
      match SpawnCacheWithLimits c1 start2 end2 with
      | (c1', inr err) =>
          o = mkOutcome (mkWorld (mkExecutionRun c1') pr)
                [Cache_SpawnCacheWithLimits start1 end1; Run_SetCache c1;
                 Cache_SpawnCacheWithLimits start2 end2]
                (Panicked err)
      | (_, inl c2) =>
          o = mkOutcome (mkWorld (mkExecutionRun c2) pr)
                [Cache_SpawnCacheWithLimits start1 end1; Run_SetCache c1;
                 Cache_SpawnCacheWithLimits start2 end2; Run_SetCache c2]
                (Returned tt)
          /\ forall position : Z,
               filter isCacheCall
                 (trace (resolve
                           (@GetStepAt M C GoGlobalState CommonHash position)
                           (theRun (final o))))
               = [stepLookupCall position]
               /\ theRun (final (resolve
                                   (@GetStepAt M C GoGlobalState CommonHash
                                      position)
                                   (theRun (final o))))
                  = mkExecutionRun (fst (stepLookup c2 position))
      end
  end.
Proof.
  cbv zeta.
  change (prepare T start1 end1 ;; prepare T start2 end2)
    with (pbind (prepare T start1 end1) (fun _ => prepare T start2 end2)).
  rewrite run_pbind, run_PrepareRange. cbn [theRun thePromise cache].
  destruct (SpawnCacheWithLimits (cache e) start1 end1) as [c0 [c1 | err]];
    [| reflexivity].
  cbn [ending final trace]. cbv zeta. rewrite run_PrepareRange.
  cbn [theRun thePromise cache].
  destruct (SpawnCacheWithLimits c1 start2 end2) as [c1' [c2 | err]];
    [| reflexivity].
  split; [reflexivity |].
  intros position. cbn [final theRun].
  pose proof (resolve_GetStepAt_cases (mkExecutionRun c2) position) as H.
  cbv zeta in H. cbn [cache] in H.
  assert (Hl : isCacheCall (stepLookupCall (C := C) (M := M)
                              (GoGlobalState := GoGlobalState)
                              (CommonHash := CommonHash) position) = true)
    by (unfold stepLookupCall; destruct (position =? sentinel); reflexivity).
  destruct (snd (stepLookup c2 position)) as [[m |] [err |]];
    try (rewrite H; cbn; rewrite Hl; split; reflexivity).
  destruct (wrongPosition position m); rewrite H; cbn; rewrite Hl;
    [split; reflexivity |].
  destruct (position =? GetStepCount m); split; reflexivity.
Qed.

End RangeFacts.

(** ** Preparing a range on the checkpointed cache *)

Module SpecCacheRanges.

Import SpecCache.

Section WithMachine.

Context {M GoGlobalState CommonHash : Type}.
Context {machines : MachineInterface M GoGlobalState CommonHash}.
Context {replay : ReplayMachine M}.

Local Abbreviation Cache := (Cache M).
Local Abbreviation prepare T start end_ :=
  (@PrepareRange M Cache GoGlobalState CommonHash T start end_).


(** A range in order, whose start the cache can reach, is accepted: the run
    is left with a new cache for that range, which starts from the machine
    at [start] and has no checkpoint. *)
Lemma prepareRange_accepts_ordered_range {T : Type}
  (c c' : Cache) (m : M) (pr : Promise T) (start end_ : Z) :
  start <= end_ ->
  getMachineAt c start = (c', (Some m, None)) ->
  run (prepare T start end_) (mkWorld (mkExecutionRun c) pr)
  = let fresh :=
      NewMachineCache (Advanced m)
        (mkConfig (checkpointInterval (config c)) (maxCheckpoints (config c))
                  (Some start) (Some end_)) in
    mkOutcome (mkWorld (mkExecutionRun fresh) pr)
      [Cache_SpawnCacheWithLimits start end_; Run_SetCache fresh]
      (Returned tt).
Proof.
  intros Hle Hm. rewrite run_PrepareRange.
  cbn [theRun cache thePromise SpawnCacheWithLimits cache_interface].
  unfold spawnWithRange.
  replace (end_ <? start) with false by (symmetry; apply Z.ltb_ge; lia).
  rewrite Hm. reflexivity.
Qed.

End WithMachine.

End SpecCacheRanges.

(** ** More runs on the test doubles *)

Module MoreExamples.

Lemma getStepAt_fulfilled_not_beyond_witness :
  resolution (Double.stepAt 20) Double.execution
  = Fulfilled {| validator.Position := 10;
                 validator.Status := validator.Finished;
                 validator.GlobalState := 100;
                 validator.Hash := 1000 |}
  /\ exists m : Double.machine,
       snd (stepLookup (cache Double.execution) 20) = (Some m, None)
       /\ {| validator.Position := 10;
             validator.Status := validator.Finished;
             validator.GlobalState := 100;
             validator.Hash := 1000 |}
          = {| validator.Position := GetStepCount m;
               validator.Status := Status m;
               validator.GlobalState := GetGlobalState m;
               validator.Hash := Hash m |}
       /\ 10 <= 20
       /\ (10 = 20 \/ IsRunning m = false).
Proof.
  assert (H : resolution (Double.stepAt 20) Double.execution
              = Fulfilled {| validator.Position := 10;
                             validator.Status := validator.Finished;
                             validator.GlobalState := 100;
                             validator.Hash := 1000 |}) by reflexivity.
  split; [exact H |].
  exact (getStepAt_fulfilled_not_beyond Double.execution 20 _ H).
Defined.

Lemma getStepAt_failure_reasons_witness :
  resolution (Double.stepAt 5) Double.execution
  = Failed (wrongPositionError 5 7)
  /\ ((exists mach,
         snd (stepLookup (cache Double.execution) 5)
         = (mach, Some (wrongPositionError 5 7)))
      \/ (exists m : Double.machine,
            snd (stepLookup (cache Double.execution) 5) = (Some m, None)
            /\ wrongPositionError 5 7 = wrongPositionError 5 (GetStepCount m)
            /\ GetStepCount m <> 5
            /\ (IsRunning m = true \/ GetStepCount m > 5))).
Proof.
  assert (H : resolution (Double.stepAt 5) Double.execution
              = Failed (wrongPositionError 5 7)) by reflexivity.
  split; [exact H |].
  exact (getStepAt_failure_reasons Double.execution 5 _ H).
Defined.

Lemma getLastStep_rejects_only_running_witness :
  snd (GetFinalMachine (cache Double.execution)) = (Some Double.halted, None)
  /\ 0 <= GetStepCount Double.halted < Uint64.modulus
  /\ resolution (@GetLastStep Double.machine Double.scripted Z Z)
                Double.execution
     = Fulfilled {| validator.Position := 10;
                    validator.Status := validator.Finished;
                    validator.GlobalState := 100;
                    validator.Hash := 1000 |}.
Proof.
  assert (H1 : snd (GetFinalMachine (cache Double.execution))
               = (Some Double.halted, None)) by reflexivity.
  assert (H2 : 0 <= GetStepCount Double.halted < Uint64.modulus)
    by (split; [discriminate | reflexivity]).
  split; [exact H1 |]. split; [exact H2 |].
  exact (getLastStep_rejects_only_running Double.execution Double.halted H1 H2).
Defined.


(** The range from 3 to 7 is in order: the run is left with a cache that
    starts from the machine at step 3, and a query for step 5 is answered
    from it. *)
Example prepareRange_ordered_range_on_counter :
  cache (theRun (final (run (@PrepareRange Counter.machine
                               (SpecCache.Cache Counter.machine) Z Z unit 3 7)
                            (mkWorld Counter.execution Pending))))
  = SpecCache.NewMachineCache (Advanced (Counter.mkMachine 3 10))
      (SpecCache.mkConfig 2 2 (Some 3) (Some 7))
  /\ resolution (Counter.stepAt 5)
       (theRun (final (run (@PrepareRange Counter.machine
                              (SpecCache.Cache Counter.machine) Z Z unit 3 7)
                           (mkWorld Counter.execution Pending))))
     = Fulfilled {| validator.Position := 5;
                    validator.Status := validator.Running;
                    validator.GlobalState := 10;
                    validator.Hash := 162 |}.
Proof. split; reflexivity. Qed.

End MoreExamples.
